(** * Coleta de dados do Índice Bovespa: a model of [script_dados_bovespa.py]

    The script creates two directories, configures the [logging] module,
    asks the market-data provider for the history of one ticker and, when
    the answer is not empty, writes it as CSV under a time-stamped name.

    The embedding is shallow.  Every function of the script is a
    computation over an explicit [World]: the file system below the working
    directory, the wall clock, the behaviour of the provider, and the
    chronological list of observable events (log records, provider calls,
    lines printed).  A computation ends by returning a value or by raising
    a Python exception; the world reached so far is kept in both cases.

    The provider is an oracle: for a ticker symbol and a period it returns
    a table or raises, and it leaves the file system and the log alone.
    The log is the sequence of records the script hands to [logging]; once
    [configure_logging] has run at level INFO, each of them is one line of
    [logs/bovespa_data.log]. *)

From Stdlib Require Import ZArith String Ascii List Lia.
From stdpp Require Import gmap strings list.

Local Open Scope string_scope.
Local Open Scope list_scope.

#[local] Arguments append !_ _ / : simpl nomatch.

(** ** Python exceptions *)

(** An instance of the class [Exception] or of one of its subclasses;
    [str(e)] is its message. *)
Record Exception := mkException {
  exc_class : string;
  exc_message : string
}.

Definition str (e : Exception) : string := exc_message e.

(** What a [raise] can carry: every raised object derives from
    [BaseException]; [KeyboardInterrupt], [SystemExit] and [GeneratorExit]
    do not derive from [Exception]. *)
Inductive BaseException :=
| Exc (e : Exception)
| KeyboardInterrupt
| SystemExit (code : Z)
| GeneratorExit.

Definition isinstance_Exception (b : BaseException) : bool :=
  match b with
  | Exc _ => true
  | _ => false
  end.

Inductive Outcome (A : Type) :=
| Returns (a : A)
| Raises (b : BaseException).

Arguments Returns {A} a.
Arguments Raises {A} b.

(** ** Paths, [pathlib.Path] *)

Definition Path := list string.

(** [Path(a) / name] *)
Definition path_div (p : Path) (name : string) : Path := p ++ [name].

(** [str(path)] on a POSIX system *)
Definition path_str (p : Path) : string := String.concat "/" p.

Definition parent (p : Path) : Path := removelast p.

(** The [OSError]s of the file system; all are instances of [Exception]. *)
Definition FileExistsError (p : Path) : BaseException :=
  Exc (mkException "FileExistsError"
         ("[Errno 17] File exists: '" +:+ path_str p +:+ "'")).

Definition FileNotFoundError (p : Path) : BaseException :=
  Exc (mkException "FileNotFoundError"
         ("[Errno 2] No such file or directory: '" +:+ path_str p +:+ "'")).

Definition IsADirectoryError (p : Path) : BaseException :=
  Exc (mkException "IsADirectoryError"
         ("[Errno 21] Is a directory: '" +:+ path_str p +:+ "'")).

(** ** Time, [datetime] *)

Record datetime := mkDatetime {
  year : Z;
  month : Z;
  day : Z;
  hour : Z;
  minute : Z;
  second : Z;
  microsecond : Z
}.

Definition digit (d : Z) : ascii := ascii_of_N (Z.to_N (48 + d)).

(** [%m], [%d], [%H], [%M], [%S]: two decimal digits *)
Definition two_digits (n : Z) : string :=
  String (digit (n / 10)) (String (digit (n mod 10)) EmptyString).

(** [%Y]: four decimal digits *)
Definition four_digits (n : Z) : string :=
  String (digit (n / 1000))
    (String (digit (n / 100 mod 10))
       (String (digit (n / 10 mod 10))
          (String (digit (n mod 10)) EmptyString))).

(** [dt.strftime("%Y%m%d_%H%M%S")] *)
Definition strftime_Ymd_HMS (dt : datetime) : string :=
  four_digits (year dt) +:+ two_digits (month dt) +:+ two_digits (day dt)
  +:+ "_" +:+
  two_digits (hour dt) +:+ two_digits (minute dt) +:+ two_digits (second dt).

(** The ranges [datetime] enforces; [%Y] is four digits from year 1000 on. *)
Definition valid_datetime (dt : datetime) : Prop :=
  (1000 <= year dt <= 9999 /\ 1 <= month dt <= 12 /\
   1 <= day dt <= 31 /\ 0 <= hour dt < 24 /\ 0 <= minute dt < 60 /\
   0 <= second dt < 60 /\ 0 <= microsecond dt < 1000000)%Z.

(** ** Logging *)

Inductive Level := INFO | WARNING | ERROR.

Record LogRecord := mkLog {
  levelname : Level;
  message : string
}.

Definition Level_eqb (a b : Level) : bool :=
  match a, b with
  | INFO, INFO | WARNING, WARNING | ERROR, ERROR => true
  | _, _ => false
  end.

(** [sub in s] *)
Definition contains (s sub : string) : Prop :=
  exists pre post, s = pre +:+ sub +:+ post.

Section Script.

(** The scalar type of the table's cells and the text pandas writes for a
    cell and for an index entry belong to pandas; the script never looks
    inside them. *)
Variable Cell : Type.
Variable repr_cell : Cell -> string.
Variable repr_index : Z -> string.

(** ** The price series table, [pandas.DataFrame] *)

(** Rows are keyed by a timestamp (nanoseconds since the epoch, as pandas
    stores them). *)
Record DataFrame := mkDataFrame {
  index_name : string;
  columns : list string;
  rows : list (Z * list Cell)
}.

(** [pd.DataFrame()] *)
Definition pd_DataFrame : DataFrame :=
  {| index_name := EmptyString; columns := []; rows := [] |}.

(** [df.empty]: true when any of the two axes has length 0 *)
Definition empty (df : DataFrame) : bool :=
  match rows df, columns df with
  | [], _ => true
  | _, [] => true
  | _, _ => false
  end.

(** [df.head()] *)
Definition head (df : DataFrame) : DataFrame :=
  {| index_name := index_name df; columns := columns df;
     rows := take 5 (rows df) |}.

Definition index (df : DataFrame) : list Z := map fst (rows df).

(** ** The world *)

Inductive Printed :=
| PrintStr (s : string)
| PrintFrame (df : DataFrame).

Inductive Event :=
| EvLog (r : LogRecord)
| EvProvider (symbol period : string)
| EvPrint (p : Printed).

Inductive Node :=
| Dir
| File (lines : list string).

Record World := mkWorld {
  fs : gmap Path Node;
  clock : datetime;
  yfinance : string -> string -> Outcome DataFrame;
  events : list Event
}.

Definition set_fs (f : gmap Path Node) (w : World) : World :=
  {| fs := f; clock := clock w; yfinance := yfinance w; events := events w |}.

Definition emit (e : Event) (w : World) : World :=
  {| fs := fs w; clock := clock w; yfinance := yfinance w;
     events := events w ++ [e] |}.

(** The records handed to [logging], oldest first. *)
Fixpoint log_of (evs : list Event) : list LogRecord :=
  match evs with
  | [] => []
  | EvLog r :: evs' => r :: log_of evs'
  | _ :: evs' => log_of evs'
  end.

(** What [print] wrote, oldest first. *)
Fixpoint stdout_of (evs : list Event) : list Printed :=
  match evs with
  | [] => []
  | EvPrint p :: evs' => p :: stdout_of evs'
  | _ :: evs' => stdout_of evs'
  end.

Definition at_level (l : Level) (rs : list LogRecord) : list LogRecord :=
  List.filter (fun r => Level_eqb (levelname r) l) rs.

(** The records of level [l] whose message is exactly [msg]. *)
Definition lines_saying (l : Level) (msg : string) (rs : list LogRecord) : list LogRecord :=
  List.filter (fun r => Level_eqb (levelname r) l && String.eqb (message r) msg) rs.

(** [path] is a directory; the working directory always is. *)
Definition is_dir (f : gmap Path Node) (p : Path) : bool :=
  match p with
  | [] => true
  | _ => match f !! p with
         | Some Dir => true
         | _ => false
         end
  end.

(** ** Computations *)

Definition Py (A : Type) : Type := World -> Outcome A * World.

#[global] Instance Py_ret : MRet Py := fun A a w => (Returns a, w).

#[global] Instance Py_bind : MBind Py := fun A B f m w =>
  match m w with
  | (Returns a, w') => f a w'
  | (Raises b, w') => (Raises b, w')
  end.

Definition raise {A} (b : BaseException) : Py A := fun w => (Raises b, w).

(** [try: body / except Exception as e: handler e] *)
Definition try_except_Exception {A} (body : Py A) (handler : Exception -> Py A) : Py A :=
  fun w =>
    match body w with
    | (Raises (Exc e), w') => handler e w'
    | r => r
    end.

Definition logging_log (l : Level) (msg : string) : Py unit :=
  fun w => (Returns tt, emit (EvLog (mkLog l msg)) w).

Definition logging_info := logging_log INFO.
Definition logging_warning := logging_log WARNING.
Definition logging_error := logging_log ERROR.

Definition print (p : Printed) : Py unit :=
  fun w => (Returns tt, emit (EvPrint p) w).

(** [datetime.now()] *)
Definition datetime_now : Py datetime := fun w => (Returns (clock w), w).

(** [yf.Ticker(symbol).history(period=period)] *)
Definition Ticker_history (symbol period : string) : Py DataFrame :=
  fun w => (yfinance w symbol period, emit (EvProvider symbol period) w).

(** [path.mkdir(exist_ok=True)]: an existing directory is left alone, an
    existing file is an error all the same, and the parent must exist. *)
Definition mkdir_exist_ok (p : Path) : Py unit :=
  fun w =>
    match fs w !! p with
    | Some Dir => (Returns tt, w)
    | Some (File _) => raise (FileExistsError p) w
    | None =>
        if is_dir (fs w) (parent p) then
          (Returns tt, set_fs (<[p := Dir]> (fs w)) w)
        else
          raise (FileNotFoundError p) w
    end.

(** Opening [p] for writing, as [open(p, mode)] does for the modes [a] and
    [w]: [after old] is the content the file has once it is open and
    written. *)
Definition open_write (p : Path) (after : option (list string) -> list string) : Py unit :=
  fun w =>
    if is_dir (fs w) (parent p) then
      match fs w !! p with
      | Some Dir => raise (IsADirectoryError p) w
      | Some (File old) => (Returns tt, set_fs (<[p := File (after (Some old))]> (fs w)) w)
      | None => (Returns tt, set_fs (<[p := File (after None)]> (fs w)) w)
      end
    else
      raise (FileNotFoundError p) w.

(** [logging.basicConfig(filename=p, level=logging.INFO, format=...)] opens
    the log file in append mode.  From then on the records of the three
    levels the script uses reach that file; they are kept in [events]. *)
Definition basicConfig (p : Path) : Py unit :=
  open_write p (fun old => match old with Some ls => ls | None => [] end).

(** ** CSV text, as [df.to_csv] writes it through the [csv] writer *)

Definition quote_char : string := String (ascii_of_nat 34) EmptyString.

Definition DQUOTE : ascii := ascii_of_nat 34.
Definition LF : ascii := ascii_of_nat 10.
Definition CR : ascii := ascii_of_nat 13.
Definition COMMA : ascii := ascii_of_nat 44.

(** [c in s] *)
Fixpoint has_char (c : ascii) (s : string) : bool :=
  match s with
  | EmptyString => false
  | String a s' => Ascii.eqb a c || has_char c s'
  end.

(** Minimal quoting: a field is quoted when it holds the delimiter, the
    quote character or a line break. *)
Definition needs_quoting (f : string) : bool :=
  has_char COMMA f || has_char DQUOTE f || has_char LF f || has_char CR f.

(** Inside a quoted field every quote character is written twice. *)
Fixpoint double_quotes (s : string) : string :=
  match s with
  | EmptyString => EmptyString
  | String a s' =>
      if Ascii.eqb a DQUOTE then String a (String a (double_quotes s'))
      else String a (double_quotes s')
  end.

Definition csv_field (f : string) : string :=
  if needs_quoting f then quote_char +:+ double_quotes f +:+ quote_char else f.

(** One record of CSV, without its terminator.  A record that consists of
    one empty field is written as two quote characters. *)
Definition csv_line (fields : list string) : string :=
  if decide (fields = [EmptyString]) then quote_char +:+ quote_char
  else String.concat "," (map csv_field fields).

(** The records of [df.to_csv(..., index=True)]: the header, then one
    record per row, each starting with the index. *)
Definition csv_records (df : DataFrame) : list string :=
  csv_line (index_name df :: columns df)
  :: map (fun r => csv_line (repr_index (fst r) :: map repr_cell (snd r))) (rows df).

(** The text of the file: every record followed by a line feed. *)
Fixpoint terminated (records : list string) : string :=
  match records with
  | [] => EmptyString
  | r :: rest => r +:+ String LF (terminated rest)
  end.

Definition csv_text (df : DataFrame) : string := terminated (csv_records df).

(** The lines of a text: what stands before each line feed, and what
    follows the last one when it is not empty. *)
Fixpoint lines_from (cur : string) (s : string) : list string :=
  match s with
  | EmptyString => if decide (cur = EmptyString) then [] else [cur]
  | String a s' =>
      if Ascii.eqb a LF then cur :: lines_from EmptyString s'
      else lines_from (cur +:+ String a EmptyString) s'
  end.

Definition splitlines (s : string) : list string := lines_from EmptyString s.

(** The lines of the file [df.to_csv(..., index=True)] writes.  A field
    that holds a line feed makes its record span several of them. *)
Definition csv_lines (df : DataFrame) : list string := splitlines (csv_text df).

(** [df.to_csv(p, index=True)] *)
Definition to_csv (df : DataFrame) (p : Path) : Py unit :=
  open_write p (fun _ => csv_lines df).

(** ** Configuration *)

Definition TICKER : string := "^BVSP".
Definition DATA_DIR : Path := ["data"].
Definition LOG_DIR : Path := ["logs"].

(** ** [fetch_bovespa_data] *)

Definition start_message (period : string) : string :=
  "Iniciando coleta de dados para " +:+ TICKER +:+ " (período: " +:+ period +:+ ")".

Definition warning_message : string := "Nenhum dado foi retornado pela API.".
Definition success_message : string := "Dados coletados com sucesso.".

Definition error_message (e : Exception) : string :=
  "Erro na coleta de dados: " +:+ str e.

Definition fetch_bovespa_data (period : string) : Py DataFrame :=
  try_except_Exception
    (logging_info (start_message period);;
     data ← Ticker_history TICKER period;
     if empty data then
       logging_warning warning_message;;
       mret pd_DataFrame
     else
       logging_info success_message;;
       mret data)
    (fun e =>
       logging_error (error_message e);;
       mret pd_DataFrame).

(** ** [setup_directories] *)

Definition setup_directories : Py unit :=
  mkdir_exist_ok DATA_DIR;;
  mkdir_exist_ok LOG_DIR.

(** ** [configure_logging] *)

Definition configure_logging : Py unit :=
  basicConfig (path_div LOG_DIR "bovespa_data.log").

(** ** [save_data] *)

Definition csv_path (now : datetime) : Path :=
  path_div DATA_DIR ("bovespa_" +:+ strftime_Ymd_HMS now +:+ ".csv").

Definition saved_message (filename : Path) : string :=
  "Dados salvos em " +:+ path_str filename.

Definition save_data (data : DataFrame) : Py unit :=
  now ← datetime_now;
  let filename := csv_path now in
  to_csv data filename;;
  logging_info (saved_message filename).

(** ** The entry point, [if __name__ == "__main__"] *)

Definition failure_text : string := "Falha na coleta de dados. Verifique os logs.".

Definition main : Py unit :=
  setup_directories;;
  configure_logging;;
  bovespa_data ← fetch_bovespa_data "1mo";
  if negb (empty bovespa_data) then
    print (PrintStr "Primeiras linhas dos dados:");;
    print (PrintFrame (head bovespa_data));;
    save_data bovespa_data
  else
    print (PrintStr failure_text).

(** ** Vocabulary of the properties *)

(** Timestamps in ascending order. *)
Fixpoint ascending (ts : list Z) : bool :=
  match ts with
  | [] => true
  | t :: rest =>
      match rest with
      | [] => true
      | u :: _ => (t <=? u)%Z && ascending rest
      end
  end.

Definition is_digit (a : ascii) : bool :=
  (48 <=? N_of_ascii a)%N && (N_of_ascii a <=? 57)%N.

(** [n] decimal digits at the front of [s]; what follows them. *)
Fixpoint skip_digits (n : nat) (s : string) : option string :=
  match n with
  | O => Some s
  | S n' =>
      match s with
      | String a s' => if is_digit a then skip_digits n' s' else None
      | EmptyString => None
      end
  end.

(** The shape YYYYMMDD_HHMMSS. *)
Definition shape_Ymd_HMS (s : string) : bool :=
  match skip_digits 8 s with
  | Some (String a s') =>
      Ascii.eqb a "_" &&
      match skip_digits 6 s' with
      | Some EmptyString => true
      | _ => false
      end
  | _ => false
  end.

(** The fields of a row as they are written: the index, then the cells. *)
Definition row_fields (r : Z * list Cell) : list string :=
  repr_index (fst r) :: map repr_cell (snd r).

(** Every written field of the table, labels included, satisfies [P]. *)
Definition all_fields (P : string -> bool) (df : DataFrame) : bool :=
  forallb P (index_name df :: columns df) &&
  forallb (fun r => forallb P (row_fields r)) (rows df).

(** No line break inside the field. *)
Definition no_line_break (f : string) : bool :=
  negb (has_char LF f) && negb (has_char CR f).

(** Nothing in the field calls for quotes. *)
Definition plain (f : string) : bool := negb (needs_quoting f).

(** A record of plain fields: the fields with commas between them. *)
Definition plain_record (fields : list string) : string :=
  if decide (fields = [EmptyString]) then quote_char +:+ quote_char
  else String.concat "," fields.

(** The number a string of decimal digits denotes. *)
Fixpoint decimal_from (acc : Z) (s : string) : Z :=
  match s with
  | EmptyString => acc
  | String a s' => decimal_from (10 * acc + (Z.of_N (N_of_ascii a) - 48)) s'
  end.

Definition decimal (s : string) : Z := decimal_from 0 s.

(** The time stamp read back: four digits that denote the year, then two
    each for month and day, an underscore, and two each for hour, minute and
    second. *)
Definition stamp_of (dt : datetime) (stamp : string) : Prop :=
  exists Y m d H M S,
    stamp = Y +:+ m +:+ d +:+ "_" +:+ H +:+ M +:+ S /\
    String.length Y = 4 /\ String.length m = 2 /\ String.length d = 2 /\
    String.length H = 2 /\ String.length M = 2 /\ String.length S = 2 /\
    decimal Y = year dt /\ decimal m = month dt /\ decimal d = day dt /\
    decimal H = hour dt /\ decimal M = minute dt /\ decimal S = second dt.

(** The same instant up to the second. *)
Definition same_second (a b : datetime) : Prop :=
  year a = year b /\ month a = month b /\ day a = day b /\
  hour a = hour b /\ minute a = minute b /\ second a = second b.

(** The world once the start line is logged and the provider has been
    called. *)
Definition started (period : string) (w : World) : World :=
  emit (EvProvider TICKER period) (emit (EvLog (mkLog INFO (start_message period))) w).

End Script.

Arguments mkDataFrame {Cell} _ _ _.
Arguments pd_DataFrame {Cell}.
Arguments empty {Cell} _.
Arguments index {Cell} _.
Arguments rows {Cell} _.
Arguments columns {Cell} _.
Arguments index_name {Cell} _.
Arguments mkWorld {Cell} _ _ _ _.
Arguments fs {Cell} _.
Arguments clock {Cell} _.
Arguments yfinance {Cell} _ _ _.
Arguments events {Cell} _.
Arguments set_fs {Cell} _ _.
Arguments EvLog {Cell} _.
Arguments EvProvider {Cell} _ _.
Arguments EvPrint {Cell} _.
Arguments PrintStr {Cell} _.
Arguments PrintFrame {Cell} _.
Arguments log_of {Cell} _.
Arguments stdout_of {Cell} _.
Arguments started {Cell} _ _.
Arguments fetch_bovespa_data {Cell} _ _.
Arguments setup_directories {Cell} _.
Arguments configure_logging {Cell} _.
Arguments save_data {Cell} _ _ _ _.
Arguments main {Cell} _ _ _.
Arguments csv_lines {Cell} _ _ _.
Arguments csv_records {Cell} _ _ _.
Arguments csv_text {Cell} _ _ _.
Arguments row_fields {Cell} _ _ _.
Arguments all_fields {Cell} _ _ _ _.
Arguments to_csv {Cell} _ _ _ _ _.
Arguments head {Cell} _.
Arguments emit {Cell} _ _.
Arguments raise {Cell A} _ _.
Arguments try_except_Exception {Cell A} _ _ _.
Arguments logging_log {Cell} _ _ _.
Arguments logging_info {Cell} _ _.
Arguments logging_warning {Cell} _ _.
Arguments logging_error {Cell} _ _.
Arguments print {Cell} _ _.
Arguments datetime_now {Cell} _.
Arguments Ticker_history {Cell} _ _ _.
Arguments mkdir_exist_ok {Cell} _ _.
Arguments open_write {Cell} _ _ _.
Arguments basicConfig {Cell} _ _.


(** A regular file at [p]. *)
Definition is_file (f : gmap Path Node) (p : Path) : bool :=
  match f !! p with
  | Some (File _) => true
  | _ => false
  end.

(** * The script at concrete inputs *)

(** Prices as integers (hundredths of a point), written in decimal. *)
Definition repr_Z (z : Z) : string := pretty.pretty z.

(** 20 May 2024, 14:30:07 and a quarter. *)
Definition a_clock : datetime := mkDatetime 2024 5 20 14 30 7 250000.

(** Providers. *)
Definition two_closes : DataFrame Z :=
  mkDataFrame "Date" ["Close"; "Volume"]
    [(1715904000, [12815100; 9000]); (1715990400, [12751300; 8700])]%Z.

Definition out_of_order : DataFrame Z :=
  mkDataFrame "Date" ["Close"]
    [(1715990400, [12751300]); (1715904000, [12815100])]%Z.

Definition no_rows : DataFrame Z :=
  mkDataFrame "Date" ["Open"; "High"; "Low"; "Close"; "Volume"] [].

Definition provider_returning (df : DataFrame Z) : string -> string -> Outcome (DataFrame Z) :=
  fun _ _ => Returns df.

Definition provider_raising (b : BaseException) : string -> string -> Outcome (DataFrame Z) :=
  fun _ _ => Raises b.

Definition timed_out : Exception :=
  mkException "ConnectionError" "Read timed out.".

(** An empty working directory, and one where the two directories exist. *)
Definition fresh_world (provider : string -> string -> Outcome (DataFrame Z)) : World Z :=
  mkWorld ∅ a_clock provider [].

Definition ready_world (provider : string -> string -> Outcome (DataFrame Z)) : World Z :=
  mkWorld (<[LOG_DIR := Dir]> (<[DATA_DIR := Dir]> ∅)) a_clock provider [].

(** The world after the start-up steps in an empty working directory. *)
Definition started_up (provider : string -> string -> Outcome (DataFrame Z)) : World Z :=
  set_fs (<[path_div LOG_DIR "bovespa_data.log" := File []]> (fs (ready_world provider)))
    (ready_world provider).

(** A working directory where [data] is a regular file, and one where
    [logs] is. *)
Definition data_is_a_file (provider : string -> string -> Outcome (DataFrame Z)) : World Z :=
  mkWorld {[ DATA_DIR := File ["not a directory"] ]} a_clock provider [].

Definition logs_is_a_file (provider : string -> string -> Outcome (DataFrame Z)) : World Z :=
  mkWorld {[ LOG_DIR := File ["not a directory"] ]} a_clock provider [].

(** The same second as [a_clock], half a second later. *)
Definition a_clock_later : datetime := mkDatetime 2024 5 20 14 30 7 750000.

(** A working directory where the CSV path of [a_clock] is a directory, and
    the world after the start-up steps there. *)
Definition csv_path_is_a_dir (provider : string -> string -> Outcome (DataFrame Z)) : World Z :=
  mkWorld {[ csv_path a_clock := Dir ]} a_clock provider [].

Definition started_up_in (w : World Z) : World Z :=
  set_fs (<[path_div LOG_DIR "bovespa_data.log" := File []]>
            (<[LOG_DIR := Dir]> (<[DATA_DIR := Dir]> (fs w)))) w.

(** A table whose one cell is a text of two lines, in a world of text cells
    where the two directories exist. *)
Definition a_note : DataFrame string :=
  mkDataFrame "Date" ["Note"] [(1715904000%Z, ["ex" +:+ String LF "dividend"])].

Definition ready_text_world : World string :=
  mkWorld (<[LOG_DIR := Dir]> (<[DATA_DIR := Dir]> ∅)) a_clock
    (fun _ _ => Returns pd_DataFrame) [].

(** A table with two index entries and no column: [empty] for pandas. *)
Definition index_only : DataFrame Z :=
  mkDataFrame "Date" [] [(1715904000, []); (1715990400, [])]%Z.


(** * Properties *)

Section Properties.

Variable Cell : Type.
Variable repr_cell : Cell -> string.
Variable repr_index : Z -> string.

(** ** Events *)

Lemma events_emit (e : Event Cell) (w : World Cell) : events (emit e w) = events w ++ [e].
Proof. reflexivity. Qed.

Lemma append_empty (s : string) : s +:+ EmptyString = s.
Proof. induction s as [|a s IH]; simpl; [reflexivity | rewrite IH; reflexivity]. Qed.

Lemma contains_suffix (pre sub : string) : contains (pre +:+ sub) sub.
Proof. exists pre, EmptyString. rewrite append_empty. reflexivity. Qed.

(** ** What one call of [fetch_bovespa_data] does *)

Lemma fetch_unfold (period : string) (w : World Cell) :
  fetch_bovespa_data period w =
  match yfinance w TICKER period with
  | Returns data =>
      if empty data then
        (Returns pd_DataFrame, emit (EvLog (mkLog WARNING warning_message)) (started period w))
      else
        (Returns data, emit (EvLog (mkLog INFO success_message)) (started period w))
  | Raises (Exc e) =>
      (Returns pd_DataFrame, emit (EvLog (mkLog ERROR (error_message e))) (started period w))
  | Raises b => (Raises b, started period w)
  end.
Proof.
  unfold fetch_bovespa_data, try_except_Exception, started, mbind, Py_bind,
    logging_info, logging_warning, logging_error, logging_log, Ticker_history.
  simpl.
  destruct (yfinance w TICKER period) as [data|b].
  - destruct (empty data); reflexivity.
  - destruct b; reflexivity.
Qed.

Lemma events_started (period : string) (w : World Cell) :
  events (started period w) =
  events w ++ [EvLog (mkLog INFO (start_message period)); EvProvider TICKER period].
Proof. unfold started. rewrite !events_emit, <- app_assoc. reflexivity. Qed.

(** The events of a call: the start line, the provider call, one closing
    record unless an exception passes through. *)
Lemma events_after_start (period : string) (w : World Cell) (r : LogRecord) :
  events (emit (EvLog r) (started period w)) =
  events w ++ [EvLog (mkLog INFO (start_message period)); EvProvider TICKER period; EvLog r].
Proof. rewrite events_emit, events_started, <- app_assoc. reflexivity. Qed.

Lemma start_is_not_success (period : string) :
  String.eqb success_message (start_message period) = false.
Proof. reflexivity. Qed.

Lemma log_of_map_EvLog (rs : list LogRecord) : log_of (map (@EvLog Cell) rs) = rs.
Proof. induction rs as [|r rs IH]; simpl; [reflexivity | rewrite IH; reflexivity]. Qed.

(** The start line is counted once when no later record repeats it. *)
Lemma start_line_once (period : string) (rest : list LogRecord) :
  lines_saying INFO (start_message period) rest = [] ->
  lines_saying INFO (start_message period)
    (log_of (@EvLog Cell (mkLog INFO (start_message period))
             :: EvProvider TICKER period :: map EvLog rest))
  = [mkLog INFO (start_message period)].
Proof.
  intros Hrest.
  cbn [log_of]. rewrite log_of_map_EvLog.
  unfold lines_saying in *. cbn [List.filter levelname message Level_eqb andb].
  rewrite String.eqb_refl, Hrest. reflexivity.
Qed.

(** Closes a goal about the start line once the outcome, the final world
    and the closing records are given. *)
Ltac start_line_first Hname :=
  split; [reflexivity|];
  split; [first [apply events_after_start | apply events_started]|];
  split; [apply start_line_once; reflexivity | exact Hname].

(** ** Properties of [fetch_bovespa_data] *)

(** C1 (as amended).  Whatever the period, when the provider returns a table
    (empty or not) or raises an instance of [Exception], the call returns a
    table and raises nothing.  The handler is [except Exception]: what the
    provider raises outside that class is not covered here. *)
Theorem fetch_returns_a_table (period : string) (w : World Cell) :
  (forall b, yfinance w TICKER period = Raises b -> isinstance_Exception b = true) ->
  exists data w', fetch_bovespa_data period w = (Returns data, w').
Proof.
  intros Hcaught. rewrite fetch_unfold.
  destruct (yfinance w TICKER period) as [data|b] eqn:Hp.
  - destruct (empty data); eauto.
  - specialize (Hcaught b eq_refl).
    destruct b; try discriminate Hcaught. eauto.
Qed.

(** C2 (as amended).  When the provider raises an instance [e] of
    [Exception], the call returns the empty table [pd.DataFrame()], and among
    the records it appends to the log exactly one has level ERROR; its
    message contains [str(e)]. *)
Theorem fetch_logs_the_Exception (period : string) (w : World Cell) (e : Exception) :
  yfinance w TICKER period = Raises (Exc e) ->
  exists w' evs,
    fetch_bovespa_data period w = (Returns pd_DataFrame, w') /\
    empty (@pd_DataFrame Cell) = true /\
    events w' = events w ++ evs /\
    at_level ERROR (log_of evs) = [mkLog ERROR (error_message e)] /\
    contains (error_message e) (str e).
Proof.
  intros Hp. rewrite fetch_unfold, Hp.
  eexists _, _. split; [reflexivity|].
  split; [reflexivity|].
  split; [apply events_after_start|].
  split; [reflexivity|].
  apply contains_suffix.
Qed.

(** C3.  When the provider returns a table that is not empty, the call
    returns that very table, and among the records it appends to the log
    exactly one is the INFO success line. *)
Theorem fetch_returns_the_provider_table (period : string) (w : World Cell) (data : DataFrame Cell) :
  yfinance w TICKER period = Returns data ->
  empty data = false ->
  exists w' evs,
    fetch_bovespa_data period w = (Returns data, w') /\
    events w' = events w ++ evs /\
    lines_saying INFO success_message (log_of evs) = [mkLog INFO success_message].
Proof.
  intros Hp Hne. rewrite fetch_unfold, Hp, Hne.
  eexists _, _. split; [reflexivity|].
  split; [apply events_after_start|].
  reflexivity.
Qed.

(** C6 (as amended).  The table a call returns is either the empty table
    [pd.DataFrame()] or the whole non-empty table the provider returned,
    never a part of it.  The call neither sorts nor checks the rows: they
    are in ascending order of timestamp whenever the provider's are. *)
Theorem fetch_all_or_nothing (period : string) (w w' : World Cell) (data : DataFrame Cell) :
  fetch_bovespa_data period w = (Returns data, w') ->
  (data = pd_DataFrame \/
   (yfinance w TICKER period = Returns data /\ empty data = false)) /\
  ((forall d, yfinance w TICKER period = Returns d -> ascending (index d) = true) ->
   ascending (index data) = true).
Proof.
  rewrite fetch_unfold.
  destruct (yfinance w TICKER period) as [d|b] eqn:Hp.
  - destruct (empty d) eqn:He; intros [= <- _].
    + split; [left; reflexivity | reflexivity].
    + split; [right; split; [reflexivity | exact He] | intros Hs; apply Hs; reflexivity].
  - destruct b; intros [= <- _] || (intros H; discriminate H).
    split; [left; reflexivity | reflexivity].
Qed.

(** C7 (as amended).  A run in which the provider returns an empty table and
    a run in which it raises an instance of [Exception] return the same
    value, the empty table [pd.DataFrame()]; the records they append to the
    log tell them apart: a WARNING and no ERROR in the first, an ERROR and no
    WARNING in the second. *)
Theorem fetch_no_data_like_Exception
    (p1 p2 : string) (w1 w2 : World Cell) (d : DataFrame Cell) (e : Exception) :
  yfinance w1 TICKER p1 = Returns d ->
  empty d = true ->
  yfinance w2 TICKER p2 = Raises (Exc e) ->
  fst (fetch_bovespa_data p1 w1) = fst (fetch_bovespa_data p2 w2) /\
  fst (fetch_bovespa_data p1 w1) = Returns pd_DataFrame /\
  exists evs1 evs2,
    events (snd (fetch_bovespa_data p1 w1)) = events w1 ++ evs1 /\
    events (snd (fetch_bovespa_data p2 w2)) = events w2 ++ evs2 /\
    at_level WARNING (log_of evs1) = [mkLog WARNING warning_message] /\
    at_level ERROR (log_of evs1) = [] /\
    at_level WARNING (log_of evs2) = [] /\
    at_level ERROR (log_of evs2) = [mkLog ERROR (error_message e)].
Proof.
  intros H1 He H2. rewrite !fetch_unfold, H1, He, H2. simpl.
  split; [reflexivity|]. split; [reflexivity|].
  eexists _, _.
  split; [apply events_after_start|].
  split; [apply events_after_start|].
  repeat split.
Qed.

(** C10.  Every call, whatever the provider does (a non-empty table, an empty
    one, an exception of any class), appends the INFO start line first and
    calls the provider after it; the call logs that line exactly once, and
    the line names the ticker and the period. *)
Theorem fetch_logs_the_start_first (period : string) (w : World Cell) :
  exists o w' rest,
    fetch_bovespa_data period w = (o, w') /\
    events w' =
      events w ++ EvLog (mkLog INFO (start_message period))
                  :: EvProvider TICKER period :: map EvLog rest /\
    lines_saying INFO (start_message period)
      (log_of (@EvLog Cell (mkLog INFO (start_message period))
               :: EvProvider TICKER period :: map EvLog rest))
    = [mkLog INFO (start_message period)] /\
    contains (start_message period) TICKER /\
    contains (start_message period) period.
Proof.
  assert (Hname : contains (start_message period) TICKER /\
                  contains (start_message period) period).
  { split.
    - exists "Iniciando coleta de dados para ", (" (período: " +:+ period +:+ ")").
      reflexivity.
    - exists ("Iniciando coleta de dados para " +:+ TICKER +:+ " (período: "), ")".
      reflexivity. }
  rewrite fetch_unfold.
  destruct (yfinance w TICKER period) as [data|b];
    [destruct (empty data) | destruct b as [e| | |]].
  - exists (Returns pd_DataFrame), (emit (EvLog (mkLog WARNING warning_message)) (started period w)),
      [mkLog WARNING warning_message].
    start_line_first Hname.
  - exists (Returns data), (emit (EvLog (mkLog INFO success_message)) (started period w)),
      [mkLog INFO success_message].
    start_line_first Hname.
  - exists (Returns pd_DataFrame), (emit (EvLog (mkLog ERROR (error_message e))) (started period w)),
      [mkLog ERROR (error_message e)].
    start_line_first Hname.
  - exists (Raises KeyboardInterrupt), (started period w), []. start_line_first Hname.
  - exists (Raises (SystemExit code)), (started period w), []. start_line_first Hname.
  - exists (Raises GeneratorExit), (started period w), []. start_line_first Hname.
Qed.

(** ** The file system *)

Lemma mkdir_exist_ok_returns (p : Path) (w w1 : World Cell) :
  mkdir_exist_ok p w = (Returns tt, w1) ->
  fs w1 !! p = Some Dir /\ events w1 = events w /\ yfinance w1 = yfinance w /\
  forall q, q ≠ p -> fs w1 !! q = fs w !! q.
Proof.
  unfold mkdir_exist_ok, raise.
  destruct (fs w !! p) as [[|old]|] eqn:Hp.
  - intros [= <-]. auto.
  - discriminate.
  - destruct (is_dir (fs w) (parent p)); [|discriminate].
    intros [= <-]. simpl.
    split; [apply lookup_insert_eq|].
    split; [reflexivity|]. split; [reflexivity|].
    intros q Hq. apply lookup_insert_ne. congruence.
Qed.

Lemma mkdir_exist_ok_present (p : Path) (w : World Cell) :
  fs w !! p = Some Dir -> mkdir_exist_ok p w = (Returns tt, w).
Proof. intros Hp. unfold mkdir_exist_ok. rewrite Hp. reflexivity. Qed.

Lemma open_write_returns (p : Path) (after : option (list string) -> list string) (w w1 : World Cell) :
  open_write p after w = (Returns tt, w1) ->
  events w1 = events w /\ yfinance w1 = yfinance w /\
  forall q, q ≠ p -> fs w1 !! q = fs w !! q.
Proof.
  unfold open_write, raise.
  destruct (is_dir (fs w) (parent p)); [|discriminate].
  destruct (fs w !! p) as [[|old]|]; [discriminate| |];
    intros [= <-]; simpl;
    (split; [reflexivity|]); (split; [reflexivity|]);
    intros q Hq; apply lookup_insert_ne; congruence.
Qed.

Lemma to_csv_returns (df : DataFrame Cell) (p : Path) (w : World Cell) :
  is_dir (fs w) (parent p) = true ->
  fs w !! p ≠ Some Dir ->
  to_csv repr_cell repr_index df p w = (Returns tt, set_fs (<[p := File (csv_lines repr_cell repr_index df)]> (fs w)) w).
Proof.
  intros Hd Hp. unfold to_csv, open_write. rewrite Hd.
  destruct (fs w !! p) as [[|old]|]; [congruence | reflexivity | reflexivity].
Qed.

(** ** Properties of [setup_directories] *)

Lemma setup_directories_again (w w1 : World Cell) :
  setup_directories w = (Returns tt, w1) ->
  setup_directories w1 = (Returns tt, w1).
Proof.
  unfold setup_directories, mbind, Py_bind.
  destruct (mkdir_exist_ok DATA_DIR w) as [[[]|b] wa] eqn:Ha; [|discriminate].
  intros Hb.
  apply mkdir_exist_ok_returns in Ha as (Hdata & _ & _ & _).
  apply mkdir_exist_ok_returns in Hb as (Hlogs & _ & _ & Hother).
  assert (Hdata1 : fs w1 !! DATA_DIR = Some Dir).
  { rewrite Hother; [exact Hdata | discriminate]. }
  rewrite (mkdir_exist_ok_present DATA_DIR w1 Hdata1).
  apply mkdir_exist_ok_present. exact Hlogs.
Qed.

(** C8.  After a call of [setup_directories] that returned, a second call
    returns as well, raising nothing, and leaves the world, with both
    directories and everything else in the file system, as the first call
    left it. *)
Theorem setup_directories_idempotent (w w1 : World Cell) :
  setup_directories w = (Returns tt, w1) ->
  setup_directories w1 = (Returns tt, w1) /\
  is_dir (fs w1) DATA_DIR = true /\ is_dir (fs w1) LOG_DIR = true.
Proof.
  intros H. split; [exact (setup_directories_again w w1 H)|].
  unfold setup_directories, mbind, Py_bind in H.
  destruct (mkdir_exist_ok DATA_DIR w) as [[[]|b] wa] eqn:Ha; [|discriminate].
  apply mkdir_exist_ok_returns in Ha as (Hdata & _ & _ & _).
  apply mkdir_exist_ok_returns in H as (Hlogs & _ & _ & Hother).
  unfold is_dir. simpl.
  rewrite Hother, Hdata, Hlogs; [split; reflexivity | discriminate].
Qed.

(** Two calls in a row are one call, also when the first one raises. *)
Lemma setup_directories_twice (w : World Cell) :
  (setup_directories;; setup_directories) w = setup_directories w.
Proof.
  unfold mbind at 1. unfold Py_bind at 1.
  destruct (setup_directories w) as [[[]|b] w1] eqn:H1; [|reflexivity].
  exact (setup_directories_again w w1 H1).
Qed.

(** ** The time stamp *)

Lemma digit_is_digit (d : Z) : (0 <= d <= 9)%Z -> is_digit (digit d) = true.
Proof.
  intros Hd.
  assert (Hcases : d = 0%Z \/ d = 1%Z \/ d = 2%Z \/ d = 3%Z \/ d = 4%Z \/
                   d = 5%Z \/ d = 6%Z \/ d = 7%Z \/ d = 8%Z \/ d = 9%Z) by lia.
  repeat (destruct Hcases as [->|Hcases]; [reflexivity|]).
  subst d. reflexivity.
Qed.

Lemma two_digits_bounds (n : Z) :
  (0 <= n < 100)%Z -> (0 <= n / 10 <= 9)%Z /\ (0 <= n mod 10 <= 9)%Z.
Proof. intros Hn. Z.to_euclidean_division_equations. lia. Qed.

Lemma four_digits_bounds (n : Z) :
  (0 <= n < 10000)%Z ->
  (0 <= n / 1000 <= 9)%Z /\ (0 <= n / 100 mod 10 <= 9)%Z /\
  (0 <= n / 10 mod 10 <= 9)%Z /\ (0 <= n mod 10 <= 9)%Z.
Proof. intros Hn. Z.to_euclidean_division_equations. lia. Qed.

Lemma strftime_shape (dt : datetime) :
  valid_datetime dt -> shape_Ymd_HMS (strftime_Ymd_HMS dt) = true.
Proof.
  intros (Hy & Hm & Hd & HH & HM & HS & _).
  destruct (four_digits_bounds (year dt)) as (y1 & y2 & y3 & y4); [lia|].
  destruct (two_digits_bounds (month dt)) as (m1 & m2); [lia|].
  destruct (two_digits_bounds (day dt)) as (d1 & d2); [lia|].
  destruct (two_digits_bounds (hour dt)) as (H1 & H2); [lia|].
  destruct (two_digits_bounds (minute dt)) as (M1 & M2); [lia|].
  destruct (two_digits_bounds (second dt)) as (S1 & S2); [lia|].
  unfold shape_Ymd_HMS, strftime_Ymd_HMS, four_digits, two_digits.
  cbn [append skip_digits].
  rewrite !digit_is_digit by assumption.
  reflexivity.
Qed.

Lemma strftime_to_the_second (a b : datetime) :
  same_second a b -> strftime_Ymd_HMS a = strftime_Ymd_HMS b.
Proof.
  intros (Hy & Hm & Hd & HH & HM & HS).
  unfold strftime_Ymd_HMS. rewrite Hy, Hm, Hd, HH, HM, HS. reflexivity.
Qed.

Lemma digit_inj (d d' : Z) :
  (0 <= d <= 9)%Z -> (0 <= d' <= 9)%Z -> digit d = digit d' -> d = d'.
Proof using.
  unfold digit. intros Hd Hd' H.
  apply (f_equal N_of_ascii) in H.
  rewrite !N_ascii_embedding in H by lia. lia.
Qed.

Lemma two_digits_inj (n m : Z) :
  (0 <= n < 100)%Z -> (0 <= m < 100)%Z -> two_digits n = two_digits m -> n = m.
Proof using.
  clear repr_cell repr_index.
  intros Hn Hm H. injection H as H1 H2.
  assert (B : forall k, (0 <= k < 100)%Z ->
                (0 <= k / 10 <= 9)%Z /\ (0 <= k mod 10 <= 9)%Z).
  { intros k Hk. Z.to_euclidean_division_equations. lia. }
  destruct (B n Hn) as (n1 & n2).
  destruct (B m Hm) as (m1 & m2).
  apply digit_inj in H1, H2; try assumption.
  clear B. Z.to_euclidean_division_equations. lia.
Qed.

Lemma four_digits_inj (n m : Z) :
  (0 <= n < 10000)%Z -> (0 <= m < 10000)%Z -> four_digits n = four_digits m -> n = m.
Proof using.
  clear repr_cell repr_index.
  intros Hn Hm H. injection H as H1 H2 H3 H4.
  assert (B : forall k, (0 <= k < 10000)%Z ->
                (0 <= k / 1000 <= 9)%Z /\ (0 <= k / 100 mod 10 <= 9)%Z /\
                (0 <= k / 10 mod 10 <= 9)%Z /\ (0 <= k mod 10 <= 9)%Z).
  { intros k Hk. Z.to_euclidean_division_equations. lia. }
  destruct (B n Hn) as (n1 & n2 & n3 & n4).
  destruct (B m Hm) as (m1 & m2 & m3 & m4).
  apply digit_inj in H1, H2, H3, H4; try assumption.
  clear B. Z.to_euclidean_division_equations. lia.
Qed.

Lemma digit_value (d : Z) :
  (0 <= d <= 9)%Z -> (Z.of_N (N_of_ascii (digit d)) - 48)%Z = d.
Proof using.
  intros Hd. unfold digit. rewrite N_ascii_embedding by lia. lia.
Qed.

Lemma decimal_two_digits (n : Z) : (0 <= n < 100)%Z -> decimal (two_digits n) = n.
Proof using.
  clear repr_cell repr_index.
  intros Hn.
  assert (B : (0 <= n / 10 <= 9)%Z /\ (0 <= n mod 10 <= 9)%Z)
    by (Z.to_euclidean_division_equations; lia).
  destruct B as (B1 & B2).
  unfold decimal, two_digits. cbn [decimal_from].
  rewrite !digit_value by assumption.
  Z.to_euclidean_division_equations. lia.
Qed.

Lemma decimal_four_digits (n : Z) : (0 <= n < 10000)%Z -> decimal (four_digits n) = n.
Proof using.
  clear repr_cell repr_index.
  intros Hn.
  assert (B : (0 <= n / 1000 <= 9)%Z /\ (0 <= n / 100 mod 10 <= 9)%Z /\
              (0 <= n / 10 mod 10 <= 9)%Z /\ (0 <= n mod 10 <= 9)%Z)
    by (Z.to_euclidean_division_equations; lia).
  destruct B as (B1 & B2 & B3 & B4).
  unfold decimal, four_digits. cbn [decimal_from].
  rewrite !digit_value by assumption.
  Z.to_euclidean_division_equations. lia.
Qed.

(** For valid readings, the path is the same exactly when the second is. *)
Lemma csv_path_same_second (a b : datetime) :
  valid_datetime a -> valid_datetime b ->
  csv_path a = csv_path b <-> same_second a b.
Proof using.
  clear repr_cell repr_index.
  intros (Hy & Hm & Hd & HH & HM & HS & _) (Hy' & Hm' & Hd' & HH' & HM' & HS' & _).
  split.
  - intros H.
    unfold csv_path, path_div, DATA_DIR, strftime_Ymd_HMS in H.
    cbn [app append] in H.
    unfold four_digits, two_digits in H. cbn [append] in H.
    injection H as y1 y2 y3 y4 m1 m2 d1 d2 h1 h2 mi1 mi2 s1 s2.
    unfold same_second.
    split; [apply four_digits_inj; [lia | lia | unfold four_digits; congruence]|].
    repeat split; apply two_digits_inj; try lia; unfold two_digits; congruence.
  - intros Hs. unfold csv_path. rewrite (strftime_to_the_second a b Hs). reflexivity.
Qed.

(** ** Properties of [save_data] *)

Lemma save_data_unfold (data : DataFrame Cell) (w : World Cell) :
  is_dir (fs w) DATA_DIR = true ->
  fs w !! csv_path (clock w) ≠ Some Dir ->
  save_data repr_cell repr_index data w =
  (Returns tt,
   emit (EvLog (mkLog INFO (saved_message (csv_path (clock w)))))
     (set_fs (<[csv_path (clock w) := File (csv_lines repr_cell repr_index data)]> (fs w)) w)).
Proof.
  intros Hd Hp.
  unfold save_data, datetime_now, logging_info, logging_log, mbind, Py_bind.
  rewrite (to_csv_returns data (csv_path (clock w)) w Hd Hp). reflexivity.
Qed.

(** *** CSV text and its lines *)

Lemma append_assoc (a b c : string) : (a +:+ b) +:+ c = a +:+ (b +:+ c).
Proof. induction a as [|x a IH]; simpl; [reflexivity | rewrite IH; reflexivity]. Qed.

Lemma has_char_append (c : ascii) (a b : string) :
  has_char c (a +:+ b) = has_char c a || has_char c b.
Proof.
  induction a as [|x a IH]; simpl; [reflexivity|].
  rewrite IH. apply orb_assoc.
Qed.

Lemma has_LF_double_quotes (s : string) :
  has_char LF (double_quotes s) = has_char LF s.
Proof.
  induction s as [|a s IH]; simpl; [reflexivity|].
  destruct (Ascii.eqb a DQUOTE) eqn:Hq; simpl; rewrite IH; [|reflexivity].
  apply Ascii.eqb_eq in Hq. subst a. reflexivity.
Qed.

Lemma csv_field_no_LF (f : string) :
  has_char LF f = false -> has_char LF (csv_field f) = false.
Proof.
  intros Hf. unfold csv_field. destruct (needs_quoting f); [|exact Hf].
  rewrite !has_char_append, has_LF_double_quotes, Hf. reflexivity.
Qed.

Lemma concat_no_LF (fields : list string) :
  forallb (fun f => negb (has_char LF f)) fields = true ->
  has_char LF (String.concat "," fields) = false.
Proof.
  induction fields as [|f rest IH]; [reflexivity|].
  cbn [forallb]. intros H. apply andb_prop in H as [Hf Hrest].
  apply negb_true_iff in Hf.
  destruct rest as [|g rest']; [exact Hf|].
  change (String.concat "," (f :: g :: rest'))
    with (f +:+ "," +:+ String.concat "," (g :: rest')).
  rewrite !has_char_append, Hf, (IH Hrest). reflexivity.
Qed.

Lemma no_line_break_no_LF (f : string) :
  no_line_break f = true -> has_char LF f = false.
Proof.
  unfold no_line_break. intros H. apply andb_prop in H as [H _].
  apply negb_true_iff in H. exact H.
Qed.

Lemma csv_line_no_LF (fields : list string) :
  forallb no_line_break fields = true -> has_char LF (csv_line fields) = false.
Proof.
  intros H. unfold csv_line.
  destruct (decide (fields = [EmptyString])); [reflexivity|].
  apply concat_no_LF. rewrite forallb_forall in *.
  intros g Hg. apply in_map_iff in Hg as (f & <- & Hf).
  apply negb_true_iff, csv_field_no_LF, no_line_break_no_LF, H, Hf.
Qed.

Lemma lines_from_record (r cur rest : string) :
  has_char LF r = false ->
  lines_from cur (r +:+ String LF rest) = (cur +:+ r) :: lines_from EmptyString rest.
Proof.
  revert cur. induction r as [|a r IH]; intros cur Hr.
  - simpl. rewrite append_empty. reflexivity.
  - simpl in Hr. apply orb_false_elim in Hr as [Ha Hr].
    simpl. rewrite Ha, (IH _ Hr), append_assoc. reflexivity.
Qed.

Lemma splitlines_terminated (records : list string) :
  forallb (fun r => negb (has_char LF r)) records = true ->
  splitlines (terminated records) = records.
Proof.
  unfold splitlines.
  induction records as [|r rest IH]; [reflexivity|].
  simpl. intros H. apply andb_prop in H as [Hr Hrest].
  apply negb_true_iff in Hr.
  rewrite (lines_from_record r EmptyString _ Hr), (IH Hrest). reflexivity.
Qed.

(** Without a line break in any field, the lines of the file are the
    records. *)
Lemma csv_lines_records (data : DataFrame Cell) :
  all_fields repr_cell repr_index no_line_break data = true ->
  csv_lines repr_cell repr_index data = csv_records repr_cell repr_index data.
Proof.
  unfold all_fields. intros H. apply andb_prop in H as [Hh Hr].
  unfold csv_lines, csv_text. apply splitlines_terminated.
  unfold csv_records. simpl.
  rewrite (csv_line_no_LF _ Hh). simpl.
  rewrite forallb_forall in *. intros l Hl.
  apply in_map_iff in Hl as (r & <- & Hin).
  apply negb_true_iff, csv_line_no_LF. exact (Hr r Hin).
Qed.

Lemma length_csv_lines (data : DataFrame Cell) :
  all_fields repr_cell repr_index no_line_break data = true ->
  length (csv_lines repr_cell repr_index data) = S (length (rows data)).
Proof.
  intros H. rewrite (csv_lines_records data H).
  unfold csv_records. simpl. rewrite length_map. reflexivity.
Qed.

Lemma plain_no_line_break (f : string) : plain f = true -> no_line_break f = true.
Proof.
  unfold plain, needs_quoting, no_line_break. intros H.
  apply negb_true_iff in H.
  apply orb_false_elim in H as [H Hcr]. apply orb_false_elim in H as [_ Hlf].
  rewrite Hlf, Hcr. reflexivity.
Qed.

Lemma map_csv_field_plain (fields : list string) :
  forallb plain fields = true -> map csv_field fields = fields.
Proof.
  induction fields as [|f rest IH]; [reflexivity|].
  cbn [forallb map]. intros H. apply andb_prop in H as [Hf Hrest].
  rewrite (IH Hrest). unfold csv_field, plain in *.
  apply negb_true_iff in Hf. rewrite Hf. reflexivity.
Qed.

Lemma csv_line_plain (fields : list string) :
  forallb plain fields = true -> csv_line fields = plain_record fields.
Proof.
  intros H. unfold csv_line, plain_record.
  rewrite (map_csv_field_plain fields H). reflexivity.
Qed.

Lemma strftime_stamp_of (dt : datetime) :
  valid_datetime dt -> stamp_of dt (strftime_Ymd_HMS dt).
Proof.
  intros (Hy & Hm & Hd & HH & HM & HS & _).
  exists (four_digits (year dt)), (two_digits (month dt)), (two_digits (day dt)),
    (two_digits (hour dt)), (two_digits (minute dt)), (two_digits (second dt)).
  split; [reflexivity|].
  repeat (split; [reflexivity|]).
  rewrite decimal_four_digits, !decimal_two_digits by lia.
  repeat split.
Qed.



(** ** Properties of the entry point *)

(** The two start-up steps leave the events, the provider and the content of
    [data/] alone. *)
Lemma startup_frame (w w0 : World Cell) :
  (setup_directories;; configure_logging) w = (Returns tt, w0) ->
  events w0 = events w /\ yfinance w0 = yfinance w /\
  forall name, fs w0 !! path_div DATA_DIR name = fs w !! path_div DATA_DIR name.
Proof.
  unfold setup_directories, configure_logging, basicConfig, mbind, Py_bind.
  destruct (mkdir_exist_ok DATA_DIR w) as [[[]|b] wa] eqn:Ha; [|discriminate].
  destruct (mkdir_exist_ok LOG_DIR wa) as [[[]|b] wb] eqn:Hb; [|discriminate].
  intros Hc.
  apply mkdir_exist_ok_returns in Ha as (_ & Hea & Hya & Hfa).
  apply mkdir_exist_ok_returns in Hb as (_ & Heb & Hyb & Hfb).
  apply open_write_returns in Hc as (Hec & Hyc & Hfc).
  split; [congruence|]. split; [congruence|].
  intros name.
  rewrite Hfc, Hfb, Hfa; [reflexivity | | |]; unfold path_div; simpl; discriminate.
Qed.

Lemma main_after_startup (w w0 : World Cell) :
  (setup_directories;; configure_logging) w = (Returns tt, w0) ->
  main repr_cell repr_index w =
  (bovespa_data ← fetch_bovespa_data "1mo";
   if negb (empty bovespa_data) then
     print (PrintStr "Primeiras linhas dos dados:");;
     print (PrintFrame (head bovespa_data));;
     save_data repr_cell repr_index bovespa_data
   else
     print (PrintStr failure_text)) w0.
Proof.
  unfold main. unfold mbind at 1 2 3 4. unfold Py_bind at 1 2 3 4.
  destruct (setup_directories w) as [[[]|b] wa]; [|discriminate].
  destruct (configure_logging wa) as [[[]|b] wb]; [|discriminate].
  intros [= ->]. reflexivity.
Qed.

(** C5 (as amended).  In a run whose start-up steps returned and in which
    the provider raises an instance [e] of [Exception], the entry point
    returns; no path below [data/] is created or changed; among the records
    appended to the log exactly one has level ERROR, and it contains
    [str(e)]; and the only thing printed is the failure message. *)
Theorem main_when_the_provider_raises (w w0 : World Cell) (e : Exception) :
  (setup_directories;; configure_logging) w = (Returns tt, w0) ->
  yfinance w TICKER "1mo" = Raises (Exc e) ->
  exists w' evs,
    main repr_cell repr_index w = (Returns tt, w') /\
    (forall name, fs w' !! path_div DATA_DIR name = fs w !! path_div DATA_DIR name) /\
    events w' = events w ++ evs /\
    at_level ERROR (log_of evs) = [mkLog ERROR (error_message e)] /\
    contains (error_message e) (str e) /\
    stdout_of evs = [PrintStr failure_text].
Proof.
  intros Hstart Hp.
  destruct (startup_frame w w0 Hstart) as (Hev & Hy & Hfs).
  rewrite (main_after_startup w w0 Hstart).
  unfold mbind, Py_bind. rewrite fetch_unfold, Hy, Hp. simpl.
  eexists _, _. split; [reflexivity|].
  split; [exact Hfs|].
  split.
  { unfold print. rewrite events_emit, events_after_start, Hev, <- app_assoc. reflexivity. }
  split; [reflexivity|].
  split; [apply contains_suffix | reflexivity].
Qed.

(** * Further properties *)

(** ** Frames: what the file-system operations leave alone *)

Lemma mkdir_exist_ok_frame (p : Path) (w w1 : World Cell) (o : Outcome unit) :
  mkdir_exist_ok p w = (o, w1) ->
  events w1 = events w /\ yfinance w1 = yfinance w /\ clock w1 = clock w /\
  forall q, q ≠ p -> fs w1 !! q = fs w !! q.
Proof.
  unfold mkdir_exist_ok, raise.
  destruct (fs w !! p) as [[|old]|]; [| |destruct (is_dir (fs w) (parent p))];
    intros [= <- <-]; simpl; repeat (split; [reflexivity|]); intros q Hq;
    try reflexivity.
  apply lookup_insert_ne. congruence.
Qed.

Lemma mkdir_exist_ok_raises (p : Path) (w w1 : World Cell) (b : BaseException) :
  mkdir_exist_ok p w = (Raises b, w1) ->
  w1 = w /\
  ((exists old, fs w !! p = Some (File old) /\ b = FileExistsError p) \/
   (fs w !! p = None /\ is_dir (fs w) (parent p) = false /\ b = FileNotFoundError p)).
Proof.
  unfold mkdir_exist_ok, raise.
  destruct (fs w !! p) as [[|old]|]; [discriminate| |].
  - intros [= <- <-]. split; [reflexivity|]. left. exists old. split; reflexivity.
  - destruct (is_dir (fs w) (parent p)); [discriminate|].
    intros [= <- <-]. split; [reflexivity|]. right. repeat split.
Qed.

Lemma open_write_frame (p : Path) (after : option (list string) -> list string)
    (w w1 : World Cell) (o : Outcome unit) :
  open_write p after w = (o, w1) ->
  events w1 = events w /\ yfinance w1 = yfinance w /\ clock w1 = clock w /\
  forall q, q ≠ p -> fs w1 !! q = fs w !! q.
Proof.
  unfold open_write, raise.
  destruct (is_dir (fs w) (parent p)); [destruct (fs w !! p) as [[|old]|]|];
    intros [= <- <-]; simpl; repeat (split; [reflexivity|]); intros q Hq;
    try reflexivity; apply lookup_insert_ne; congruence.
Qed.

Lemma open_write_raises (p : Path) (after : option (list string) -> list string)
    (w w1 : World Cell) (b : BaseException) :
  open_write p after w = (Raises b, w1) ->
  w1 = w /\ exists e, b = Exc e.
Proof.
  unfold open_write, raise, IsADirectoryError, FileNotFoundError.
  destruct (is_dir (fs w) (parent p)); [destruct (fs w !! p) as [[|old]|]|];
    try discriminate; intros [= <- <-]; split; eauto.
Qed.

Lemma mkdir_exist_ok_creates (p : Path) (w : World Cell) :
  fs w !! p = None ->
  is_dir (fs w) (parent p) = true ->
  mkdir_exist_ok p w = (Returns tt, set_fs (<[p := Dir]> (fs w)) w).
Proof. intros Hp Hd. unfold mkdir_exist_ok. rewrite Hp, Hd. reflexivity. Qed.

(** ** More about [setup_directories] *)

(** X1.  [exist_ok=True] forgives an existing directory, never an existing
    file: if [setup_directories] returns, neither [data] nor [logs] was a
    regular file; and when [data] is a regular file it raises
    [FileExistsError] for [data] and creates nothing, [logs/] included. *)
Theorem setup_directories_rejects_files (w : World Cell) :
  (forall w1, setup_directories w = (Returns tt, w1) ->
              is_file (fs w) DATA_DIR = false /\ is_file (fs w) LOG_DIR = false) /\
  (is_file (fs w) DATA_DIR = true ->
   setup_directories w = (Raises (FileExistsError DATA_DIR), w)).
Proof.
  unfold setup_directories, mbind, Py_bind, is_file.
  split.
  - intros w1 H.
    destruct (mkdir_exist_ok DATA_DIR w) as [[[]|b] wa] eqn:Ha; [|discriminate].
    pose proof (mkdir_exist_ok_frame _ _ _ _ Ha) as (_ & _ & _ & Hfa).
    rewrite <- (Hfa LOG_DIR) by discriminate.
    unfold mkdir_exist_ok, raise in Ha, H.
    destruct (fs w !! DATA_DIR) as [[|old]|]; [| discriminate |];
      (destruct (fs wa !! LOG_DIR) as [[|old']|]; [| discriminate |]); split; reflexivity.
  - intros Hfile. unfold mkdir_exist_ok, raise.
    destruct (fs w !! DATA_DIR) as [[|old]|]; [discriminate | reflexivity | discriminate].
Qed.

Lemma setup_directories_touches_two_paths_aux (w w1 : World Cell) (o : Outcome unit) :
  setup_directories w = (o, w1) ->
  (forall q, q ≠ DATA_DIR -> q ≠ LOG_DIR -> fs w1 !! q = fs w !! q) /\
  events w1 = events w /\ yfinance w1 = yfinance w /\ clock w1 = clock w.
Proof.
  unfold setup_directories, mbind, Py_bind.
  destruct (mkdir_exist_ok DATA_DIR w) as [[[]|b] wa] eqn:Ha.
  - intros Hb.
    apply mkdir_exist_ok_frame in Ha as (Hea & Hya & Hca & Hfa).
    apply mkdir_exist_ok_frame in Hb as (Heb & Hyb & Hcb & Hfb).
    split; [|repeat split; congruence].
    intros q Hd Hl. rewrite Hfb, Hfa by assumption. reflexivity.
  - intros [= <- <-].
    apply mkdir_exist_ok_frame in Ha as (Hea & Hya & Hca & Hfa).
    split; [|repeat split; assumption].
    intros q Hd _. apply Hfa. exact Hd.
Qed.

(** X2.  Whatever its outcome, [setup_directories] changes no path other
    than [data] and [logs], so files already under [data/] or [logs/] stay as
    they are, and it logs and prints nothing. *)
Theorem setup_directories_touches_two_paths (w w1 : World Cell) (o : Outcome unit) :
  setup_directories w = (o, w1) ->
  (forall q, q ≠ DATA_DIR -> q ≠ LOG_DIR -> fs w1 !! q = fs w !! q) /\
  events w1 = events w.
Proof.
  intros H.
  destruct (setup_directories_touches_two_paths_aux w w1 o H) as (Hf & He & _).
  split; assumption.
Qed.

(** X3.  [setup_directories] is not all-or-nothing: when [data] is absent
    and [logs] is a regular file, it raises [FileExistsError] for [logs]
    after having created [data/]. *)
Theorem setup_directories_not_atomic (w : World Cell) (old : list string) :
  fs w !! DATA_DIR = None ->
  fs w !! LOG_DIR = Some (File old) ->
  setup_directories w =
    (Raises (FileExistsError LOG_DIR), set_fs (<[DATA_DIR := Dir]> (fs w)) w).
Proof.
  intros Hd Hl.
  unfold setup_directories, mbind, Py_bind, mkdir_exist_ok, raise.
  rewrite Hd. simpl. rewrite lookup_insert_ne by discriminate.
  rewrite Hl. reflexivity.
Qed.

(** ** [configure_logging] *)

(** X4.  After a call of [setup_directories] that returned,
    [configure_logging] returns as long as the log path is not a directory:
    the log file then exists, empty when it was missing, with its old lines
    when it was there; no other path and no event is touched. *)
Theorem configure_logging_after_setup (w w1 : World Cell) :
  setup_directories w = (Returns tt, w1) ->
  fs w !! path_div LOG_DIR "bovespa_data.log" ≠ Some Dir ->
  exists w2 lines,
    configure_logging w1 = (Returns tt, w2) /\
    fs w2 !! path_div LOG_DIR "bovespa_data.log" = Some (File lines) /\
    (forall old, fs w !! path_div LOG_DIR "bovespa_data.log" = Some (File old) -> lines = old) /\
    (fs w !! path_div LOG_DIR "bovespa_data.log" = None -> lines = []) /\
    (forall q, q ≠ path_div LOG_DIR "bovespa_data.log" -> fs w2 !! q = fs w1 !! q) /\
    events w2 = events w.
Proof.
  intros Hs Hfree.
  destruct (setup_directories_touches_two_paths_aux w w1 _ Hs) as (Hframe & Hev & _).
  assert (Hlogs : is_dir (fs w1) (parent (path_div LOG_DIR "bovespa_data.log")) = true).
  { unfold setup_directories, mbind, Py_bind in Hs.
    destruct (mkdir_exist_ok DATA_DIR w) as [[[]|b] wa]; [|discriminate].
    apply mkdir_exist_ok_returns in Hs as (Hl & _).
    change (parent (path_div LOG_DIR "bovespa_data.log")) with LOG_DIR.
    unfold is_dir, LOG_DIR in *. rewrite Hl. reflexivity. }
  assert (Hsame : fs w1 !! path_div LOG_DIR "bovespa_data.log"
                  = fs w !! path_div LOG_DIR "bovespa_data.log").
  { apply Hframe; discriminate. }
  unfold configure_logging, basicConfig, open_write. rewrite Hlogs, Hsame.
  destruct (fs w !! path_div LOG_DIR "bovespa_data.log") as [[|old]|] eqn:Hold;
    [congruence| |].
  - eexists _, old. split; [reflexivity|]. simpl.
    split; [apply lookup_insert_eq|].
    split; [intros old' [= <-]; reflexivity|].
    split; [discriminate|].
    split; [intros q Hq; apply lookup_insert_ne; congruence | exact Hev].
  - eexists _, []. split; [reflexivity|]. simpl.
    split; [apply lookup_insert_eq|].
    split; [discriminate|].
    split; [reflexivity|].
    split; [intros q Hq; apply lookup_insert_ne; congruence | exact Hev].
Qed.

(** ** More about [fetch_bovespa_data] *)

(** X6.  Whatever the provider does, a call of [fetch_bovespa_data] creates
    or changes no path other than the log file and prints nothing: its only
    traces are log records and the provider call. *)
Theorem fetch_leaves_other_files_alone (period : string) (w : World Cell) :
  (forall q, q ≠ path_div LOG_DIR "bovespa_data.log" ->
             fs (snd (fetch_bovespa_data period w)) !! q = fs w !! q) /\
  exists evs,
    events (snd (fetch_bovespa_data period w)) = events w ++ evs /\
    stdout_of evs = [].
Proof.
  rewrite fetch_unfold.
  destruct (yfinance w TICKER period) as [data|b];
    [destruct (empty data) | destruct b];
    (split; [reflexivity|]); eexists;
    (split; [first [apply events_after_start | apply events_started] | reflexivity]).
Qed.

(** ** More about [save_data] *)

(** X7.  [save_data] logs the "saved" line exactly when the file has been
    written: either it returns, the file at the time-stamped path holds the
    table's CSV lines and the INFO record is the one event appended, or it
    raises an instance of [Exception] and leaves the world, log included, as
    it was. *)
Theorem save_data_logs_iff_written (data : DataFrame Cell) (w : World Cell) :
  (exists w',
      save_data repr_cell repr_index data w = (Returns tt, w') /\
      fs w' !! csv_path (clock w) = Some (File (csv_lines repr_cell repr_index data)) /\
      events w' = events w ++ [EvLog (mkLog INFO (saved_message (csv_path (clock w))))]) \/
  (exists e, save_data repr_cell repr_index data w = (Raises (Exc e), w)).
Proof.
  unfold save_data, datetime_now, to_csv, logging_info, logging_log, mbind, Py_bind.
  destruct (open_write (csv_path (clock w)) (fun _ => csv_lines repr_cell repr_index data) w)
    as [[[]|b] w1] eqn:Ho.
  - left. eexists. split; [reflexivity|]. simpl.
    pose proof (open_write_frame _ _ _ _ _ Ho) as (Hev & _).
    split; [|rewrite Hev; reflexivity].
    unfold open_write, raise in Ho.
    destruct (is_dir (fs w) (parent (csv_path (clock w)))); [|discriminate].
    destruct (fs w !! csv_path (clock w)) as [[|old]|]; [discriminate| |];
      injection Ho as <-; simpl; apply lookup_insert_eq.
  - right. apply open_write_raises in Ho as (-> & e & ->). exists e. reflexivity.
Qed.

(** X8.  Two saves within the same second overwrite each other silently:
    after saving [d1] and then [d2] under the same clock reading, the file
    holds the lines of [d2] only, and both saves have logged their line. *)
Theorem save_data_overwrites (d1 d2 : DataFrame Cell) (w : World Cell) :
  is_dir (fs w) DATA_DIR = true ->
  fs w !! csv_path (clock w) ≠ Some Dir ->
  exists w2,
    (save_data repr_cell repr_index d1;; save_data repr_cell repr_index d2) w
      = (Returns tt, w2) /\
    fs w2 = <[csv_path (clock w) := File (csv_lines repr_cell repr_index d2)]> (fs w) /\
    events w2 = events w ++ [EvLog (mkLog INFO (saved_message (csv_path (clock w))));
                             EvLog (mkLog INFO (saved_message (csv_path (clock w))))].
Proof.
  intros Hd Hp.
  unfold mbind at 1. unfold Py_bind at 1.
  rewrite (save_data_unfold d1 w Hd Hp).
  rewrite save_data_unfold.
  - eexists. split; [reflexivity|]. simpl.
    split; [apply insert_insert_eq|].
    rewrite <- app_assoc. reflexivity.
  - simpl. unfold is_dir. rewrite lookup_insert_ne by discriminate. exact Hd.
  - simpl. rewrite lookup_insert_eq. discriminate.
Qed.

(** ** File names and time *)

(** X9.  The file name tells the second: for valid clock readings, two
    readings that give the same CSV path agree on year, month, day, hour,
    minute and second.  Saves at different seconds therefore never write the
    same file. *)
Theorem csv_path_tells_the_second (a b : datetime) :
  valid_datetime a -> valid_datetime b ->
  csv_path a = csv_path b -> same_second a b.
Proof using.
  clear repr_cell repr_index.
  intros (Hy & Hm & Hd & HH & HM & HS & _) (Hy' & Hm' & Hd' & HH' & HM' & HS' & _) H.
  unfold csv_path, path_div, DATA_DIR, strftime_Ymd_HMS in H.
  cbn [app append] in H.
  unfold four_digits, two_digits in H. cbn [append] in H.
  injection H as y1 y2 y3 y4 m1 m2 d1 d2 h1 h2 mi1 mi2 s1 s2.
  unfold same_second.
  split; [apply four_digits_inj; [lia | lia | unfold four_digits; congruence]|].
  repeat split; apply two_digits_inj; try lia; unfold two_digits; congruence.
Qed.

(** ** More about the entry point *)

Lemma setup_directories_ready (w w1 : World Cell) :
  setup_directories w = (Returns tt, w1) ->
  is_dir (fs w1) DATA_DIR = true /\ is_dir (fs w1) LOG_DIR = true.
Proof.
  unfold setup_directories, mbind, Py_bind. intros H.
  destruct (mkdir_exist_ok DATA_DIR w) as [[[]|b] wa] eqn:Ha; [|discriminate].
  apply mkdir_exist_ok_returns in Ha as (Hdata & _).
  apply mkdir_exist_ok_returns in H as (Hlogs & _ & _ & Hother).
  unfold is_dir, DATA_DIR, LOG_DIR in *.
  rewrite Hother, Hdata, Hlogs; [split; reflexivity | discriminate].
Qed.

Lemma startup_ready (w w0 : World Cell) :
  (setup_directories;; configure_logging) w = (Returns tt, w0) ->
  clock w0 = clock w /\ is_dir (fs w0) DATA_DIR = true.
Proof.
  unfold mbind, Py_bind.
  destruct (setup_directories w) as [[[]|b] wa] eqn:Hs; [|discriminate].
  intros Hc.
  destruct (setup_directories_touches_two_paths_aux w wa _ Hs) as (_ & _ & _ & Hcs).
  destruct (setup_directories_ready w wa Hs) as (Hdata & _).
  unfold configure_logging, basicConfig in Hc.
  apply open_write_frame in Hc as (_ & _ & Hcc & Hfc).
  split; [congruence|].
  unfold is_dir, DATA_DIR in *. rewrite Hfc; [exact Hdata | discriminate].
Qed.

Lemma save_data_cases (data : DataFrame Cell) (w : World Cell) :
  (exists w',
      save_data repr_cell repr_index data w = (Returns tt, w') /\
      fs w' = <[csv_path (clock w) := File (csv_lines repr_cell repr_index data)]> (fs w) /\
      events w' = events w ++ [EvLog (mkLog INFO (saved_message (csv_path (clock w))))]) \/
  (exists e, save_data repr_cell repr_index data w = (Raises (Exc e), w)).
Proof.
  unfold save_data, datetime_now, to_csv, logging_info, logging_log, mbind, Py_bind.
  destruct (open_write (csv_path (clock w)) (fun _ => csv_lines repr_cell repr_index data) w)
    as [[[]|b] w1] eqn:Ho.
  - left. eexists. split; [reflexivity|]. simpl.
    pose proof (open_write_frame _ _ _ _ _ Ho) as (Hev & _).
    split; [|rewrite Hev; reflexivity].
    unfold open_write, raise in Ho.
    destruct (is_dir (fs w) (parent (csv_path (clock w)))); [|discriminate].
    destruct (fs w !! csv_path (clock w)) as [[|old]|]; [discriminate| |];
      injection Ho as <-; reflexivity.
  - right. apply open_write_raises in Ho as (-> & e & ->). exists e. reflexivity.
Qed.

(** X10.  The run that succeeds: when the start-up steps returned, the
    provider returns a table that is not empty and the time-stamped path is
    not a directory, the entry point returns; it has logged the start and
    success lines, printed the heading and the first five rows, written the
    whole table (header and one line per row when no field holds a line
    break) and logged the path, in that order, with no WARNING or ERROR
    record. *)
Theorem main_saves_what_it_fetched (w w0 : World Cell) (data : DataFrame Cell) :
  (setup_directories;; configure_logging) w = (Returns tt, w0) ->
  yfinance w TICKER "1mo" = Returns data ->
  empty data = false ->
  fs w !! csv_path (clock w) ≠ Some Dir ->
  exists w',
    main repr_cell repr_index w = (Returns tt, w') /\
    fs w' = <[csv_path (clock w) := File (csv_lines repr_cell repr_index data)]> (fs w0) /\
    (all_fields repr_cell repr_index no_line_break data = true ->
     length (csv_lines repr_cell repr_index data) = S (length (rows data))) /\
    events w' =
      events w ++ [EvLog (mkLog INFO (start_message "1mo"));
                   EvProvider TICKER "1mo";
                   EvLog (mkLog INFO success_message);
                   EvPrint (PrintStr "Primeiras linhas dos dados:");
                   EvPrint (PrintFrame (head data));
                   EvLog (mkLog INFO (saved_message (csv_path (clock w))))].
Proof.
  intros Hstart Hp Hne Hfree.
  destruct (startup_frame w w0 Hstart) as (Hev & Hy & Hfs).
  destruct (startup_ready w w0 Hstart) as (Hc & Hdir).
  rewrite (main_after_startup w w0 Hstart).
  unfold mbind at 1. unfold Py_bind at 1.
  rewrite fetch_unfold, Hy, Hp, Hne.
  unfold mbind, Py_bind, print. rewrite Hne. cbn [negb].
  set (w3 := emit (EvPrint (PrintFrame (head data))) _).
  assert (Hc3 : clock w3 = clock w) by (subst w3; simpl; exact Hc).
  assert (Hf3 : fs w3 = fs w0) by reflexivity.
  assert (He3 : events w3 =
                events w ++ [EvLog (mkLog INFO (start_message "1mo"));
                             EvProvider TICKER "1mo";
                             EvLog (mkLog INFO success_message);
                             EvPrint (PrintStr "Primeiras linhas dos dados:");
                             EvPrint (PrintFrame (head data))]).
  { subst w3. rewrite !events_emit, events_started, Hev, <- !app_assoc. reflexivity. }
  clearbody w3.
  rewrite (save_data_unfold data w3).
  - eexists. split; [reflexivity|]. simpl. rewrite Hc3, Hf3, He3, <- app_assoc.
    split; [reflexivity|].
    split; [apply length_csv_lines | reflexivity].
  - rewrite Hf3. exact Hdir.
  - rewrite Hf3, Hc3. unfold csv_path in *. rewrite Hfs. exact Hfree.
Qed.

(** X11.  The run without data: when the start-up steps returned and the
    provider returns an empty table, the entry point returns, having logged
    the start line and one WARNING, printed the failure message and nothing
    else, and written no file. *)
Theorem main_on_no_data (w w0 : World Cell) (d : DataFrame Cell) :
  (setup_directories;; configure_logging) w = (Returns tt, w0) ->
  yfinance w TICKER "1mo" = Returns d ->
  empty d = true ->
  exists w',
    main repr_cell repr_index w = (Returns tt, w') /\
    fs w' = fs w0 /\
    events w' =
      events w ++ [EvLog (mkLog INFO (start_message "1mo"));
                   EvProvider TICKER "1mo";
                   EvLog (mkLog WARNING warning_message);
                   EvPrint (PrintStr failure_text)].
Proof.
  intros Hstart Hp He.
  destruct (startup_frame w w0 Hstart) as (Hev & Hy & _).
  rewrite (main_after_startup w w0 Hstart).
  unfold mbind, Py_bind. rewrite fetch_unfold, Hy, Hp, He. simpl.
  eexists. split; [reflexivity|]. split; [reflexivity|].
  unfold print. rewrite events_emit, events_after_start, Hev, <- app_assoc. reflexivity.
Qed.

(** X12.  A start-up failure is fatal: when [setup_directories] or
    [configure_logging] raises, the entry point ends with that exception
    there and then; the provider is never called and nothing is logged or
    printed. *)
Theorem main_stops_when_startup_raises (w w1 : World Cell) (b : BaseException) :
  (setup_directories;; configure_logging) w = (Raises b, w1) ->
  main repr_cell repr_index w = (Raises b, w1) /\ events w1 = events w.
Proof.
  unfold main. unfold mbind at 1 2 3 4 5. unfold Py_bind at 1 2 3 4 5.
  destruct (setup_directories w) as [[[]|b'] wa] eqn:Hs.
  - destruct (setup_directories_touches_two_paths_aux w wa _ Hs) as (_ & Hes & _).
    destruct (configure_logging wa) as [[[]|b''] wb] eqn:Hc; [discriminate|].
    intros [= <- <-]. split; [reflexivity|].
    unfold configure_logging, basicConfig in Hc.
    apply open_write_frame in Hc as (Hec & _). congruence.
  - destruct (setup_directories_touches_two_paths_aux w wa _ Hs) as (_ & Hes & _).
    intros [= <- <-]. split; [reflexivity | exact Hes].
Qed.

(** X13.  The entry point writes under [data/] only what it fetched: if a
    run leaves some path [data/<name>] other than it found it, then the
    provider returned a table that is not empty, the path is the
    time-stamped CSV path, and the file holds that table's lines. *)
Theorem main_writes_only_fetched_data (w : World Cell) (name : string) :
  fs (snd (main repr_cell repr_index w)) !! path_div DATA_DIR name
    ≠ fs w !! path_div DATA_DIR name ->
  exists data,
    yfinance w TICKER "1mo" = Returns data /\
    empty data = false /\
    path_div DATA_DIR name = csv_path (clock w) /\
    fs (snd (main repr_cell repr_index w)) !! csv_path (clock w)
      = Some (File (csv_lines repr_cell repr_index data)).
Proof.
  assert (Hd : path_div DATA_DIR name ≠ DATA_DIR) by discriminate.
  assert (Hl : path_div DATA_DIR name ≠ LOG_DIR) by discriminate.
  assert (Hlog : path_div DATA_DIR name ≠ path_div LOG_DIR "bovespa_data.log") by discriminate.
  remember (main repr_cell repr_index w) as r eqn:Hr.
  unfold main in Hr. unfold mbind at 1 2 3 in Hr. unfold Py_bind at 1 2 3 in Hr.
  destruct (setup_directories w) as [[[]|b] wa] eqn:Hs;
    destruct (setup_directories_touches_two_paths_aux w wa _ Hs) as (Hfs & _ & Hys & Hcs);
    [|subst r; simpl; intros H; destruct H; apply Hfs; assumption].
  destruct (configure_logging wa) as [[[]|b] wb] eqn:Hc;
    unfold configure_logging, basicConfig in Hc;
    apply open_write_frame in Hc as (_ & Hyc & Hcc & Hfc);
    [|subst r; simpl; intros H; destruct H; rewrite Hfc, Hfs by assumption; reflexivity].
  assert (Hsame : fs wb !! path_div DATA_DIR name = fs w !! path_div DATA_DIR name).
  { rewrite Hfc, Hfs by assumption. reflexivity. }
  rewrite fetch_unfold, Hyc, Hys in Hr.
  destruct (yfinance w TICKER "1mo") as [data|b];
    [destruct (empty data) eqn:He | destruct b];
    try (subst r; simpl; intros H; destruct H; exact Hsame).
  unfold mbind, Py_bind, print in Hr. rewrite He in Hr. cbn [negb] in Hr.
  set (w3 := emit (EvPrint (PrintFrame (head data))) _) in Hr.
  assert (Hc3 : clock w3 = clock w) by (subst w3; simpl; congruence).
  assert (Hf3 : fs w3 = fs wb) by reflexivity.
  clearbody w3.
  destruct (save_data_cases data w3) as [(w' & Hrun & Hfs' & _) | (e & Hrun)];
    rewrite Hrun in Hr; subst r; simpl; intros H.
  - rewrite Hfs', Hc3, Hf3 in *.
    destruct (decide (path_div DATA_DIR name = csv_path (clock w))) as [Heq|Hne].
    + exists data. split; [reflexivity|]. split; [exact He|].
      split; [exact Heq | apply lookup_insert_eq].
    + destruct H. rewrite lookup_insert_ne by congruence. exact Hsame.
  - destruct H. rewrite Hf3. exact Hsame.
Qed.

(** X14.  Errors of the save are not caught: when the start-up steps
    returned, the provider returns a table that is not empty and the
    time-stamped path is a directory, the entry point ends with
    [IsADirectoryError]; the success line is logged and the rows are printed,
    but no file is written and no "saved" line is logged. *)
Theorem main_lets_save_errors_out (w w0 : World Cell) (data : DataFrame Cell) :
  (setup_directories;; configure_logging) w = (Returns tt, w0) ->
  yfinance w TICKER "1mo" = Returns data ->
  empty data = false ->
  fs w !! csv_path (clock w) = Some Dir ->
  exists w',
    main repr_cell repr_index w = (Raises (IsADirectoryError (csv_path (clock w))), w') /\
    fs w' = fs w0 /\
    events w' =
      events w ++ [EvLog (mkLog INFO (start_message "1mo"));
                   EvProvider TICKER "1mo";
                   EvLog (mkLog INFO success_message);
                   EvPrint (PrintStr "Primeiras linhas dos dados:");
                   EvPrint (PrintFrame (head data))].
Proof.
  intros Hstart Hp Hne Hdirp.
  destruct (startup_frame w w0 Hstart) as (Hev & Hy & Hfs).
  destruct (startup_ready w w0 Hstart) as (Hc & Hdir).
  rewrite (main_after_startup w w0 Hstart).
  unfold mbind at 1. unfold Py_bind at 1.
  rewrite fetch_unfold, Hy, Hp, Hne.
  unfold mbind, Py_bind, print. rewrite Hne. cbn [negb].
  set (w3 := emit (EvPrint (PrintFrame (head data))) _).
  assert (Hc3 : clock w3 = clock w) by (subst w3; simpl; exact Hc).
  assert (Hf3 : fs w3 = fs w0) by reflexivity.
  assert (He3 : events w3 =
                events w ++ [EvLog (mkLog INFO (start_message "1mo"));
                             EvProvider TICKER "1mo";
                             EvLog (mkLog INFO success_message);
                             EvPrint (PrintStr "Primeiras linhas dos dados:");
                             EvPrint (PrintFrame (head data))]).
  { subst w3. rewrite !events_emit, events_started, Hev, <- !app_assoc. reflexivity. }
  clearbody w3.
  exists w3.
  unfold save_data, datetime_now, to_csv, open_write, raise, mbind, Py_bind.
  change (parent (csv_path (clock w3))) with DATA_DIR.
  rewrite Hf3, Hdir, Hc3. unfold csv_path in *. rewrite Hfs, Hdirp.
  split; [reflexivity|]. split; [reflexivity | exact He3].
Qed.

End Properties.

(** * The script and the theorems at concrete inputs *)

Example a_stamp : strftime_Ymd_HMS a_clock = "20240520_143007".
Proof. reflexivity. Qed.

Example a_csv : csv_lines repr_Z repr_Z two_closes =
  ["Date,Close,Volume"; "1715904000,12815100,9000"; "1715990400,12751300,8700"].
Proof. vm_compute. reflexivity. Qed.

Example an_empty_csv : csv_lines repr_Z repr_Z pd_DataFrame = [quote_char +:+ quote_char].
Proof. vm_compute. reflexivity. Qed.

Example a_fetch :
  fst (fetch_bovespa_data "1mo" (fresh_world (provider_returning two_closes))) = Returns two_closes.
Proof. reflexivity. Qed.

Example a_run :
  fst (main repr_Z repr_Z (fresh_world (provider_returning two_closes))) = Returns tt /\
  events (snd (main repr_Z repr_Z (fresh_world (provider_returning two_closes)))) =
    [EvLog (mkLog INFO (start_message "1mo"));
     EvProvider TICKER "1mo";
     EvLog (mkLog INFO success_message);
     EvPrint (PrintStr "Primeiras linhas dos dados:");
     EvPrint (PrintFrame two_closes);
     EvLog (mkLog INFO "Dados salvos em data/bovespa_20240520_143007.csv")] /\
  fs (snd (main repr_Z repr_Z (fresh_world (provider_returning two_closes))))
    !! ["data"; "bovespa_20240520_143007.csv"]
  = Some (File ["Date,Close,Volume"; "1715904000,12815100,9000"; "1715990400,12751300,8700"]).
Proof. vm_compute. repeat split. Qed.

Example a_setup :
  setup_directories (fresh_world (provider_returning two_closes))
  = (Returns tt, ready_world (provider_returning two_closes)).
Proof. reflexivity. Qed.


(** C1 at a provider that raises a [ConnectionError]. *)
Lemma fetch_returns_a_table_witness :
  (forall b, yfinance (fresh_world (provider_raising (Exc timed_out))) TICKER "1mo" = Raises b ->
             isinstance_Exception b = true) /\
  exists data w',
    fetch_bovespa_data "1mo" (fresh_world (provider_raising (Exc timed_out))) = (Returns data, w').
Proof.
  assert (H : forall b,
             yfinance (fresh_world (provider_raising (Exc timed_out))) TICKER "1mo" = Raises b ->
             isinstance_Exception b = true).
  { intros b Hb. injection Hb as <-. reflexivity. }
  split; [exact H|].
  exact (fetch_returns_a_table Z "1mo" (fresh_world (provider_raising (Exc timed_out))) H).
Defined.

(** C1 as stated fails when what the provider raises is not an [Exception]:
    a [KeyboardInterrupt] leaves the call. *)
Lemma fetch_lets_KeyboardInterrupt_through :
  yfinance (fresh_world (provider_raising KeyboardInterrupt)) TICKER "1mo"
    = Raises KeyboardInterrupt /\
  fetch_bovespa_data "1mo" (fresh_world (provider_raising KeyboardInterrupt))
    = (Raises KeyboardInterrupt, started "1mo" (fresh_world (provider_raising KeyboardInterrupt))).
Proof. split; reflexivity. Qed.

(** C2 at a provider that raises a [ConnectionError]. *)
Lemma fetch_logs_the_Exception_witness :
  yfinance (fresh_world (provider_raising (Exc timed_out))) TICKER "1d" = Raises (Exc timed_out) /\
  exists w' evs,
    fetch_bovespa_data "1d" (fresh_world (provider_raising (Exc timed_out)))
      = (Returns pd_DataFrame, w') /\
    empty (@pd_DataFrame Z) = true /\
    events w' = events (fresh_world (provider_raising (Exc timed_out))) ++ evs /\
    at_level ERROR (log_of evs) = [mkLog ERROR (error_message timed_out)] /\
    contains (error_message timed_out) (str timed_out).
Proof.
  split; [reflexivity|].
  exact (fetch_logs_the_Exception Z "1d" (fresh_world (provider_raising (Exc timed_out)))
           timed_out eq_refl).
Defined.

(** C2 as stated fails for a [SystemExit]: the call returns nothing and logs
    no ERROR record. *)
Lemma fetch_logs_no_error_on_SystemExit :
  yfinance (fresh_world (provider_raising (SystemExit 1))) TICKER "1y" = Raises (SystemExit 1) /\
  fst (fetch_bovespa_data "1y" (fresh_world (provider_raising (SystemExit 1))))
    = Raises (SystemExit 1) /\
  at_level ERROR
    (log_of (events (snd (fetch_bovespa_data "1y" (fresh_world (provider_raising (SystemExit 1)))))))
    = [].
Proof. repeat split. Qed.

(** C3 at a provider that returns two rows. *)
Lemma fetch_returns_the_provider_table_witness :
  yfinance (fresh_world (provider_returning two_closes)) TICKER "1mo" = Returns two_closes /\
  empty two_closes = false /\
  exists w' evs,
    fetch_bovespa_data "1mo" (fresh_world (provider_returning two_closes))
      = (Returns two_closes, w') /\
    events w' = events (fresh_world (provider_returning two_closes)) ++ evs /\
    lines_saying INFO success_message (log_of evs) = [mkLog INFO success_message].
Proof.
  split; [reflexivity|]. split; [reflexivity|].
  exact (fetch_returns_the_provider_table Z "1mo" (fresh_world (provider_returning two_closes))
           two_closes eq_refl eq_refl).
Defined.

(** C6 at a provider that returns two rows in ascending order. *)
Lemma fetch_all_or_nothing_witness :
  fetch_bovespa_data "1mo" (fresh_world (provider_returning two_closes))
    = (Returns two_closes, snd (fetch_bovespa_data "1mo" (fresh_world (provider_returning two_closes)))) /\
  (two_closes = pd_DataFrame \/
   (yfinance (fresh_world (provider_returning two_closes)) TICKER "1mo" = Returns two_closes /\
    empty two_closes = false)) /\
  ((forall d, yfinance (fresh_world (provider_returning two_closes)) TICKER "1mo" = Returns d ->
              ascending (index d) = true) ->
   ascending (index two_closes) = true).
Proof.
  split; [reflexivity|].
  exact (fetch_all_or_nothing Z "1mo" (fresh_world (provider_returning two_closes))
           (snd (fetch_bovespa_data "1mo" (fresh_world (provider_returning two_closes))))
           two_closes eq_refl).
Defined.

(** C6 as stated fails when the provider's rows are out of order: the call
    returns them as they came. *)
Lemma fetch_keeps_the_provider_order :
  fst (fetch_bovespa_data "1mo" (fresh_world (provider_returning out_of_order)))
    = Returns out_of_order /\
  empty out_of_order = false /\
  ascending (index out_of_order) = false.
Proof. repeat split. Qed.

(** C7 at a provider without data and a provider that raises a
    [ConnectionError]. *)
Lemma fetch_no_data_like_Exception_witness :
  yfinance (fresh_world (provider_returning no_rows)) TICKER "1mo" = Returns no_rows /\
  empty no_rows = true /\
  yfinance (fresh_world (provider_raising (Exc timed_out))) TICKER "1mo" = Raises (Exc timed_out) /\
  fst (fetch_bovespa_data "1mo" (fresh_world (provider_returning no_rows)))
    = fst (fetch_bovespa_data "1mo" (fresh_world (provider_raising (Exc timed_out)))).
Proof.
  split; [reflexivity|]. split; [reflexivity|]. split; [reflexivity|].
  exact (proj1 (fetch_no_data_like_Exception Z "1mo" "1mo"
                  (fresh_world (provider_returning no_rows))
                  (fresh_world (provider_raising (Exc timed_out)))
                  no_rows timed_out eq_refl eq_refl eq_refl)).
Defined.

(** C7 as stated fails when the exception is a [KeyboardInterrupt]: one run
    returns the empty table, the other returns nothing. *)
Lemma fetch_no_data_unlike_KeyboardInterrupt :
  fst (fetch_bovespa_data "1mo" (fresh_world (provider_returning no_rows)))
    = Returns pd_DataFrame /\
  fst (fetch_bovespa_data "1mo" (fresh_world (provider_raising KeyboardInterrupt)))
    = Raises KeyboardInterrupt.
Proof. split; reflexivity. Qed.

(** C8 in an empty working directory. *)
Lemma setup_directories_idempotent_witness :
  setup_directories (fresh_world (provider_returning two_closes))
    = (Returns tt, ready_world (provider_returning two_closes)) /\
  setup_directories (ready_world (provider_returning two_closes))
    = (Returns tt, ready_world (provider_returning two_closes)) /\
  is_dir (fs (ready_world (provider_returning two_closes))) DATA_DIR = true /\
  is_dir (fs (ready_world (provider_returning two_closes))) LOG_DIR = true.
Proof.
  split; [reflexivity|].
  exact (setup_directories_idempotent Z (fresh_world (provider_returning two_closes))
           (ready_world (provider_returning two_closes)) eq_refl).
Defined.

Lemma a_clock_is_valid : valid_datetime a_clock.
Proof. unfold valid_datetime, a_clock. simpl. lia. Qed.

Lemma a_csv_path_is_free (provider : string -> string -> Outcome (DataFrame Z)) :
  fs (ready_world provider) !! csv_path (clock (ready_world provider)) ≠ Some Dir.
Proof. vm_compute. discriminate. Qed.

Lemma two_closes_has_plain_fields : all_fields repr_Z repr_Z plain two_closes = true.
Proof. vm_compute. reflexivity. Qed.

Lemma two_closes_has_no_line_break : all_fields repr_Z repr_Z no_line_break two_closes = true.
Proof. vm_compute. reflexivity. Qed.



Lemma no_rows_has_plain_labels :
  forallb plain (index_name no_rows :: columns no_rows) = true.
Proof. vm_compute. reflexivity. Qed.



(** C5 in an empty working directory, the provider raising a
    [ConnectionError]. *)
Lemma main_when_the_provider_raises_witness :
  (setup_directories;; configure_logging) (fresh_world (provider_raising (Exc timed_out)))
    = (Returns tt, started_up (provider_raising (Exc timed_out))) /\
  yfinance (fresh_world (provider_raising (Exc timed_out))) TICKER "1mo" = Raises (Exc timed_out) /\
  exists w' evs,
    main repr_Z repr_Z (fresh_world (provider_raising (Exc timed_out))) = (Returns tt, w') /\
    (forall name,
        fs w' !! path_div DATA_DIR name
        = fs (fresh_world (provider_raising (Exc timed_out))) !! path_div DATA_DIR name) /\
    events w' = events (fresh_world (provider_raising (Exc timed_out))) ++ evs /\
    at_level ERROR (log_of evs) = [mkLog ERROR (error_message timed_out)] /\
    contains (error_message timed_out) (str timed_out) /\
    stdout_of evs = [PrintStr failure_text].
Proof.
  split; [reflexivity|]. split; [reflexivity|].
  exact (main_when_the_provider_raises Z repr_Z repr_Z
           (fresh_world (provider_raising (Exc timed_out)))
           (started_up (provider_raising (Exc timed_out)))
           timed_out eq_refl eq_refl).
Defined.

(** C5 as stated fails for a [KeyboardInterrupt]: the run ends with the
    exception, having logged no ERROR record and printed nothing. *)
Lemma main_ends_on_KeyboardInterrupt :
  fst (main repr_Z repr_Z (fresh_world (provider_raising KeyboardInterrupt)))
    = Raises KeyboardInterrupt /\
  at_level ERROR
    (log_of (events (snd (main repr_Z repr_Z (fresh_world (provider_raising KeyboardInterrupt))))))
    = [] /\
  stdout_of (events (snd (main repr_Z repr_Z (fresh_world (provider_raising KeyboardInterrupt)))))
    = [].
Proof. repeat split. Qed.

(** ** The further properties at concrete inputs *)

(** X1 in a working directory where [data] is a regular file. *)
Lemma setup_directories_rejects_files_witness :
  is_file (fs (data_is_a_file (provider_returning two_closes))) DATA_DIR = true /\
  setup_directories (data_is_a_file (provider_returning two_closes))
    = (Raises (FileExistsError DATA_DIR), data_is_a_file (provider_returning two_closes)).
Proof.
  split; [reflexivity|].
  exact (proj2 (setup_directories_rejects_files Z
                  (data_is_a_file (provider_returning two_closes))) eq_refl).
Defined.

(** X2 in a working directory where [logs] is a regular file. *)
Lemma setup_directories_touches_two_paths_witness :
  setup_directories (logs_is_a_file (provider_returning two_closes))
    = (Raises (FileExistsError LOG_DIR),
       set_fs (<[DATA_DIR := Dir]> (fs (logs_is_a_file (provider_returning two_closes))))
         (logs_is_a_file (provider_returning two_closes))) /\
  (forall q, q ≠ DATA_DIR -> q ≠ LOG_DIR ->
     fs (set_fs (<[DATA_DIR := Dir]> (fs (logs_is_a_file (provider_returning two_closes))))
           (logs_is_a_file (provider_returning two_closes))) !! q
     = fs (logs_is_a_file (provider_returning two_closes)) !! q) /\
  events (set_fs (<[DATA_DIR := Dir]> (fs (logs_is_a_file (provider_returning two_closes))))
            (logs_is_a_file (provider_returning two_closes)))
  = events (logs_is_a_file (provider_returning two_closes)).
Proof.
  split; [reflexivity|].
  exact (setup_directories_touches_two_paths Z
           (logs_is_a_file (provider_returning two_closes)) _ _ eq_refl).
Defined.

(** X3 in a working directory where [logs] is a regular file. *)
Lemma setup_directories_not_atomic_witness :
  fs (logs_is_a_file (provider_returning two_closes)) !! DATA_DIR = None /\
  fs (logs_is_a_file (provider_returning two_closes)) !! LOG_DIR
    = Some (File ["not a directory"]) /\
  setup_directories (logs_is_a_file (provider_returning two_closes))
    = (Raises (FileExistsError LOG_DIR),
       set_fs (<[DATA_DIR := Dir]> (fs (logs_is_a_file (provider_returning two_closes))))
         (logs_is_a_file (provider_returning two_closes))).
Proof.
  split; [reflexivity|]. split; [reflexivity|].
  exact (setup_directories_not_atomic Z (logs_is_a_file (provider_returning two_closes))
           ["not a directory"] eq_refl eq_refl).
Defined.

Lemma a_log_path_is_free (provider : string -> string -> Outcome (DataFrame Z)) :
  fs (fresh_world provider) !! path_div LOG_DIR "bovespa_data.log" ≠ Some Dir.
Proof. vm_compute. discriminate. Qed.

(** X4 in an empty working directory. *)
Lemma configure_logging_after_setup_witness :
  setup_directories (fresh_world (provider_returning two_closes))
    = (Returns tt, ready_world (provider_returning two_closes)) /\
  fs (fresh_world (provider_returning two_closes)) !! path_div LOG_DIR "bovespa_data.log"
    ≠ Some Dir /\
  exists w2 lines,
    configure_logging (ready_world (provider_returning two_closes)) = (Returns tt, w2) /\
    fs w2 !! path_div LOG_DIR "bovespa_data.log" = Some (File lines) /\
    lines = [].
Proof.
  split; [reflexivity|]. split; [apply a_log_path_is_free|].
  destruct (configure_logging_after_setup Z
              (fresh_world (provider_returning two_closes))
              (ready_world (provider_returning two_closes))
              eq_refl (a_log_path_is_free _))
    as (w2 & lines & Hrun & Hfile & _ & Hnew & _).
  exists w2, lines. split; [exact Hrun|]. split; [exact Hfile|].
  apply Hnew. reflexivity.
Defined.

(** X8 for a table of two rows saved first and a table without rows saved
    second. *)
Lemma save_data_overwrites_witness :
  is_dir (fs (ready_world (provider_returning two_closes))) DATA_DIR = true /\
  fs (ready_world (provider_returning two_closes)) !! csv_path a_clock ≠ Some Dir /\
  exists w2,
    (save_data repr_Z repr_Z two_closes;; save_data repr_Z repr_Z no_rows)
      (ready_world (provider_returning two_closes)) = (Returns tt, w2) /\
    fs w2 = <[csv_path a_clock := File (csv_lines repr_Z repr_Z no_rows)]>
              (fs (ready_world (provider_returning two_closes))).
Proof.
  split; [reflexivity|]. split; [apply a_csv_path_is_free|].
  destruct (save_data_overwrites Z repr_Z repr_Z two_closes no_rows
              (ready_world (provider_returning two_closes))
              eq_refl (a_csv_path_is_free _))
    as (w2 & Hrun & Hfs & _).
  exists w2. split; [exact Hrun | exact Hfs].
Defined.

Lemma a_clock_later_is_valid : valid_datetime a_clock_later.
Proof. unfold valid_datetime, a_clock_later. simpl. lia. Qed.

(** X9 for two readings half a second apart. *)
Lemma csv_path_tells_the_second_witness :
  valid_datetime a_clock /\ valid_datetime a_clock_later /\
  csv_path a_clock = csv_path a_clock_later /\
  same_second a_clock a_clock_later.
Proof.
  split; [exact a_clock_is_valid|]. split; [exact a_clock_later_is_valid|].
  split; [reflexivity|].
  exact (csv_path_tells_the_second a_clock a_clock_later
           a_clock_is_valid a_clock_later_is_valid eq_refl).
Defined.

Lemma a_fresh_csv_path_is_free (provider : string -> string -> Outcome (DataFrame Z)) :
  fs (fresh_world provider) !! csv_path (clock (fresh_world provider)) ≠ Some Dir.
Proof. vm_compute. discriminate. Qed.

(** X10 in an empty working directory, the provider returning two rows. *)
Lemma main_saves_what_it_fetched_witness :
  (setup_directories;; configure_logging) (fresh_world (provider_returning two_closes))
    = (Returns tt, started_up (provider_returning two_closes)) /\
  yfinance (fresh_world (provider_returning two_closes)) TICKER "1mo" = Returns two_closes /\
  empty two_closes = false /\
  fs (fresh_world (provider_returning two_closes)) !! csv_path a_clock ≠ Some Dir /\
  exists w',
    main repr_Z repr_Z (fresh_world (provider_returning two_closes)) = (Returns tt, w') /\
    fs w' = <[csv_path a_clock := File (csv_lines repr_Z repr_Z two_closes)]>
              (fs (started_up (provider_returning two_closes))) /\
    length (csv_lines repr_Z repr_Z two_closes) = 3.
Proof.
  split; [reflexivity|]. split; [reflexivity|]. split; [reflexivity|].
  split; [apply a_fresh_csv_path_is_free|].
  destruct (main_saves_what_it_fetched Z repr_Z repr_Z
              (fresh_world (provider_returning two_closes))
              (started_up (provider_returning two_closes))
              two_closes eq_refl eq_refl eq_refl (a_fresh_csv_path_is_free _))
    as (w' & Hrun & Hfs & Hlen & _).
  exists w'. split; [exact Hrun|].
  split; [exact Hfs | exact (Hlen two_closes_has_no_line_break)].
Defined.

(** X11 in an empty working directory, the provider returning no rows. *)
Lemma main_on_no_data_witness :
  (setup_directories;; configure_logging) (fresh_world (provider_returning no_rows))
    = (Returns tt, started_up (provider_returning no_rows)) /\
  yfinance (fresh_world (provider_returning no_rows)) TICKER "1mo" = Returns no_rows /\
  empty no_rows = true /\
  exists w',
    main repr_Z repr_Z (fresh_world (provider_returning no_rows)) = (Returns tt, w') /\
    fs w' = fs (started_up (provider_returning no_rows)) /\
    events w' =
      events (fresh_world (provider_returning no_rows))
      ++ [EvLog (mkLog INFO (start_message "1mo"));
          EvProvider TICKER "1mo";
          EvLog (mkLog WARNING warning_message);
          EvPrint (PrintStr failure_text)].
Proof.
  split; [reflexivity|]. split; [reflexivity|]. split; [reflexivity|].
  exact (main_on_no_data Z repr_Z repr_Z
           (fresh_world (provider_returning no_rows))
           (started_up (provider_returning no_rows))
           no_rows eq_refl eq_refl eq_refl).
Defined.

(** X12 in a working directory where [data] is a regular file. *)
Lemma main_stops_when_startup_raises_witness :
  (setup_directories;; configure_logging) (data_is_a_file (provider_returning two_closes))
    = (Raises (FileExistsError DATA_DIR), data_is_a_file (provider_returning two_closes)) /\
  main repr_Z repr_Z (data_is_a_file (provider_returning two_closes))
    = (Raises (FileExistsError DATA_DIR), data_is_a_file (provider_returning two_closes)) /\
  events (data_is_a_file (provider_returning two_closes))
    = events (data_is_a_file (provider_returning two_closes)).
Proof.
  split; [reflexivity|].
  exact (main_stops_when_startup_raises Z repr_Z repr_Z
           (data_is_a_file (provider_returning two_closes))
           (data_is_a_file (provider_returning two_closes))
           (FileExistsError DATA_DIR) eq_refl).
Defined.

Lemma a_run_writes_a_file :
  fs (snd (main repr_Z repr_Z (fresh_world (provider_returning two_closes))))
    !! path_div DATA_DIR "bovespa_20240520_143007.csv"
  ≠ fs (fresh_world (provider_returning two_closes))
    !! path_div DATA_DIR "bovespa_20240520_143007.csv".
Proof. vm_compute. discriminate. Qed.

(** X13 in an empty working directory, the provider returning two rows. *)
Lemma main_writes_only_fetched_data_witness :
  fs (snd (main repr_Z repr_Z (fresh_world (provider_returning two_closes))))
    !! path_div DATA_DIR "bovespa_20240520_143007.csv"
  ≠ fs (fresh_world (provider_returning two_closes))
    !! path_div DATA_DIR "bovespa_20240520_143007.csv" /\
  exists data,
    yfinance (fresh_world (provider_returning two_closes)) TICKER "1mo" = Returns data /\
    empty data = false /\
    path_div DATA_DIR "bovespa_20240520_143007.csv" = csv_path a_clock /\
    fs (snd (main repr_Z repr_Z (fresh_world (provider_returning two_closes))))
      !! csv_path a_clock
    = Some (File (csv_lines repr_Z repr_Z data)).
Proof.
  split; [exact a_run_writes_a_file|].
  exact (main_writes_only_fetched_data Z repr_Z repr_Z
           (fresh_world (provider_returning two_closes))
           "bovespa_20240520_143007.csv" a_run_writes_a_file).
Defined.

(** X14 in a working directory where the CSV path is a directory. *)
Lemma main_lets_save_errors_out_witness :
  (setup_directories;; configure_logging) (csv_path_is_a_dir (provider_returning two_closes))
    = (Returns tt, started_up_in (csv_path_is_a_dir (provider_returning two_closes))) /\
  yfinance (csv_path_is_a_dir (provider_returning two_closes)) TICKER "1mo"
    = Returns two_closes /\
  empty two_closes = false /\
  fs (csv_path_is_a_dir (provider_returning two_closes)) !! csv_path a_clock = Some Dir /\
  exists w',
    main repr_Z repr_Z (csv_path_is_a_dir (provider_returning two_closes))
      = (Raises (IsADirectoryError (csv_path a_clock)), w') /\
    fs w' = fs (started_up_in (csv_path_is_a_dir (provider_returning two_closes))).
Proof.
  split; [reflexivity|]. split; [reflexivity|]. split; [reflexivity|].
  split; [reflexivity|].
  destruct (main_lets_save_errors_out Z repr_Z repr_Z
              (csv_path_is_a_dir (provider_returning two_closes))
              (started_up_in (csv_path_is_a_dir (provider_returning two_closes)))
              two_closes eq_refl eq_refl eq_refl eq_refl)
    as (w' & Hrun & Hfs & _).
  exists w'. split; [exact Hrun | exact Hfs].
Defined.
